(** * Radix checkbox primitive and context factory: a shallow embedding

    Sources embedded here:
    - [src/unnamed/part_000]: [createContext] (the context factory);
    - [src/packages/react/checkbox/src/Checkbox.tsx]: [Checkbox],
      [CheckboxIndicator], [BubbleInput], [getState].

    JavaScript values are modelled by the shapes the TypeScript types give
    them; [undefined] is [None] of an [option].  A computation that can
    throw returns a [Completion]. *)

From Stdlib Require Import Bool List String Arith Lia.
Import ListNotations.

Set Implicit Arguments.

(* ------------------------------------------------------------------ *)
(** ** JavaScript completions *)

Module Js.

Inductive JsError : Type :=
| Error (message : string)   (* throw new Error(message) *)
| TypeError.                 (* a property read on undefined *)

Inductive Completion (A : Type) : Type :=
| Return (a : A)
| Throw (e : JsError).

Arguments Return {A} a.
Arguments Throw {A} e.

Definition throws {A : Type} (c : Completion A) : bool :=
  match c with Return _ => false | Throw _ => true end.

(** [s.includes(t)]: [t] occurs in [s] as a contiguous substring. *)
Fixpoint includes (s t : string) : bool :=
  if String.prefix t s then true
  else match s with
       | EmptyString => false
       | String _ s' => includes s' t
       end.

End Js.

(* ------------------------------------------------------------------ *)
(** ** The context factory ([src/unnamed/part_000]) *)

Module Context.
Import Js.

Section createContext.

(** The object part of [ContextValueType extends object | null]. *)
Variable V : Type.

Inductive ContextValueType : Type :=
| JsNull
| JsObject (v : V).

(** What React keeps for a context made by
    [React.createContext<ContextValueType | undefined>(defaultContext)]. *)
Record ReactContext : Type := { defaultValue : option ContextValueType }.

Definition React_createContext (d : option ContextValueType) : ReactContext :=
  {| defaultValue := d |}.

(** The position of a component in the tree, as far as one context is
    concerned: the values of the enclosing [<Context.Provider>]s,
    nearest first. *)
Definition Enclosing : Type := list (option ContextValueType).

(** [React.useContext(Context)]: the nearest enclosing provider's
    value, and the context's default when there is none. *)
Definition React_useContext (C : ReactContext) (tree : Enclosing)
  : option ContextValueType :=
  match tree with
  | value :: _ => value
  | [] => defaultValue C
  end.

Variable rootComponentName : string.
Variable defaultContext : option ContextValueType.  (* defaultContext?: ... *)

Definition Context : ReactContext := React_createContext defaultContext.

(** [Provider(props)] on a render in which the memo of lines 12-16 gives
    the props of that render (the mount render, and every render of a
    provider whose props keep their keys, as the checkbox's do): the
    children are rendered under [<Context.Provider value={value}>], where
    [value] is the props object without [children].  The memo itself, and
    the renders in which it gives an earlier props object, are in
    [ProviderMemo] below. *)
Definition Provider (providerProps : V) (tree : Enclosing) : Enclosing :=
  let value := JsObject providerProps in
  Some value :: tree.

Definition missingProviderMessage (consumerName : string) : string :=
  ("`" ++ consumerName ++ "` must be used within `" ++ rootComponentName ++ "`")%string.

Definition useContext (consumerName : string) (tree : Enclosing)
  : Completion ContextValueType :=
  let context := React_useContext Context tree in
  match context with
  | None =>
      (* if a defaultContext wasn't specified, it's a required context. *)
      match defaultContext with
      | None => Throw (Error (missingProviderMessage consumerName))
      | Some d => Return d
      end
  | Some c => Return c
  end.

Definition Provider_displayName : string := (rootComponentName ++ "Provider")%string.

End createContext.

Arguments JsNull {V}.
Arguments JsObject {V} v.

(** [createContext(rootComponentName, defaultContext)] returns
    [[Provider, useContext]]. *)
Definition createContext (V : Type) (rootComponentName : string)
    (defaultContext : option (ContextValueType V)) :=
  (@Provider V, useContext rootComponentName defaultContext).

End Context.

(* ------------------------------------------------------------------ *)
(** ** Collaborators of the checkbox that live in other packages *)

(** The Controllable State Unit, [useControllableState] of package
    [@radix-ui/react-use-controllable-state], is not under [src/]; the
    definitions of this module follow spec 4.2. *)
Module ControllableState.

Section useControllableState.

Variable T : Type.

(** Modelled from the spec: the argument of [setValue] (absent
    [useControllableState]), "either a literal next value or a pure
    function of the previous value". *)
Inductive SetStateAction : Type :=
| Literal (next : T)
| Updater (f : option T -> T).

(** Modelled from the spec: the ownership mode of the absent
    [useControllableState], "controlled iff externalValue is not the
    sentinel unset value" ([undefined]). *)
Definition isControlled (prop : option T) : bool :=
  match prop with Some _ => true | None => false end.

(** Modelled from the spec: the value the absent [useControllableState]
    returns.  Controlled, "currentValue always equals externalValue on
    every read"; uncontrolled, it "is internal state seeded from
    initialState" ([uncontrolledProp], which starts as [defaultProp]). *)
Definition currentValue (prop : option T) (uncontrolledProp : option T) : option T :=
  match prop with
  | Some external => Some external
  | None => uncontrolledProp
  end.

(** Modelled from the spec: how the absent [setValue] reads its
    argument, a literal or a function of the previous value. *)
Definition resolve (action : SetStateAction) (prev : option T) : T :=
  match action with
  | Literal next => next
  | Updater f => f prev
  end.

(** Modelled from the spec: the calls the optional [onChange] callback
    of the absent [useControllableState] receives, "invokes
    onChange(next) if supplied". *)
Definition notify (onChange : bool) (next : T) : list T :=
  if onChange then [next] else [].

(** Modelled from the spec: [setValue] of the absent
    [useControllableState], giving the new internal cell and the
    notifications sent to [onChange].  Controlled, it "never mutates
    local state, it only invokes onChange(next)"; uncontrolled, it
    "mutates internal state directly and then invokes onChange(next)
    if supplied". *)
Definition setValue (prop : option T) (onChange : bool) (action : SetStateAction)
    (uncontrolledProp : option T) : option T * list T :=
  let next := resolve action (currentValue prop uncontrolledProp) in
  if isControlled prop
  then (uncontrolledProp, notify onChange next)
  else (Some next, notify onChange next).

End useControllableState.

Arguments Literal {T} next.
Arguments Updater {T} f.

End ControllableState.

(** Modelled from the spec: [usePrevious] (package
    [@radix-ui/react-use-previous], not under [src/]).  Spec 3: "one-slot
    memory of the previous render's CheckedState".  On the mount render
    there is no previous render; the slot then answers with the mounted
    value itself, as spec 8.5 requires (zero events across N renders that
    all carry the same state, the first included). *)
Definition usePrevious {T : Type} (value : T) (slot : option T) : T * option T :=
  (match slot with Some previous => previous | None => value end, Some value).

(** A React synthetic event, as far as the handlers here read or change it. *)
Module SyntheticEvent.

Record t : Type := {
  propagationStopped : bool;
  defaultPrevented : bool
}.

Definition isPropagationStopped (e : t) : bool := propagationStopped e.

Definition stopPropagation (e : t) : t :=
  {| propagationStopped := true; defaultPrevented := defaultPrevented e |}.

(** A freshly dispatched event. *)
Definition fresh : t := {| propagationStopped := false; defaultPrevented := false |}.

End SyntheticEvent.

(** Modelled from the spec: [composeEventHandlers] (package
    [@radix-ui/primitive], not under [src/]).  Spec 4.4: the outer consumer
    handler runs on the event before the component's own handling.  A
    handler is a change of the state [S] it can reach (the event, and for
    the component's own handler also the instance). *)
Definition composeEventHandlers {S : Type} (originalEventHandler : option (S -> S))
    (ourEventHandler : S -> S) : S -> S :=
  fun s =>
    let s := match originalEventHandler with
             | Some handler => handler s
             | None => s
             end in
    ourEventHandler s.

(* ------------------------------------------------------------------ *)
(** ** The DOM, as far as [BubbleInput] touches it *)

Module Dom.
Import Js.

(** The hidden [<input type="checkbox">]: its two IDL properties. *)
Record HTMLInputElement : Type := {
  indeterminate : bool;
  checked : bool
}.

(** [new Event(type, { bubbles })]. *)
Record Event : Type := {
  type : string;
  bubbles : bool
}.

(** What is done to the node, in the order it is done.  Listeners run
    inside [dispatchEvent]; [seen] is the node as they find it. *)
Inductive Op : Type :=
| SetIndeterminate (value : bool)
| SetChecked (value : bool)
| DispatchEvent (event : Event) (seen : HTMLInputElement).

(** A property descriptor, of which only [set] is read; it is absent on
    a property without a setter. *)
Record PropertyDescriptor : Type := {
  set : option (HTMLInputElement -> bool -> HTMLInputElement)
}.

(** The host: what
    [Object.getOwnPropertyDescriptor(window.HTMLInputElement.prototype, 'checked')]
    answers, [None] being [undefined] (no such own property). *)
Record Window : Type := {
  getOwnPropertyDescriptor_checked : option PropertyDescriptor
}.

(** The setter of the HTML standard: it assigns the checkedness. *)
Definition checked_setter (input : HTMLInputElement) (value : bool) : HTMLInputElement :=
  {| indeterminate := indeterminate input; checked := value |}.

Definition browser : Window :=
  {| getOwnPropertyDescriptor_checked := Some {| set := Some checked_setter |} |}.

(** A host whose [checked] property has a descriptor without setter. *)
Definition host_without_setter : Window :=
  {| getOwnPropertyDescriptor_checked := Some {| set := None |} |}.

(** A host where [checked] is not an own property of the prototype. *)
Definition host_without_descriptor : Window :=
  {| getOwnPropertyDescriptor_checked := None |}.

(** The setter [BubbleInput] ends up with, when it gets that far. *)
Definition located_setter (window : Window)
  : option (HTMLInputElement -> bool -> HTMLInputElement) :=
  match getOwnPropertyDescriptor_checked window with
  | Some descriptor => set descriptor
  | None => None
  end.

Definition setter_located (window : Window) : bool :=
  match located_setter window with Some _ => true | None => false end.

(** *** Computations on the node: state, a log of operations, throwing *)

Record Outcome (A : Type) : Type := {
  completion : Completion A;
  node : HTMLInputElement;
  ops : list Op
}.

Definition M (A : Type) : Type := HTMLInputElement -> Outcome A.

Definition ret {A : Type} (a : A) : M A :=
  fun input => {| completion := Return a; node := input; ops := [] |}.

Definition throw {A : Type} (e : JsError) : M A :=
  fun input => {| completion := Throw e; node := input; ops := [] |}.

Definition bind {A B : Type} (m : M A) (k : A -> M B) : M B :=
  fun input =>
    let r := m input in
    match completion r with
    | Return a =>
        let r' := k a (node r) in
        {| completion := completion r'; node := node r'; ops := ops r ++ ops r' |}
    | Throw e => {| completion := Throw e; node := node r; ops := ops r |}
    end.

(** [input.indeterminate = value]. *)
Definition set_indeterminate (value : bool) : M unit :=
  fun input =>
    {| completion := Return tt;
       node := {| indeterminate := value; checked := checked input |};
       ops := [SetIndeterminate value] |}.

(** [setChecked.call(input, value)]. *)
Definition call_setter (setChecked : HTMLInputElement -> bool -> HTMLInputElement)
    (value : bool) : M unit :=
  fun input =>
    {| completion := Return tt; node := setChecked input value; ops := [SetChecked value] |}.

(** [input.dispatchEvent(event)]. *)
Definition dispatchEvent (event : Event) : M unit :=
  fun input =>
    {| completion := Return tt; node := input; ops := [DispatchEvent event input] |}.

Definition is_dispatch (op : Op) : bool :=
  match op with DispatchEvent _ _ => true | _ => false end.

Definition dispatch_count (l : list Op) : nat := List.length (filter is_dispatch l).

End Dom.

Declare Scope dom_scope.
Delimit Scope dom_scope with dom.
Notation "x <- m ;; k" := (Dom.bind m (fun x => k))
  (at level 61, m at next level, right associativity) : dom_scope.
Notation "m ;;; k" := (Dom.bind m (fun _ => k))
  (at level 61, right associativity) : dom_scope.

(* ------------------------------------------------------------------ *)
(** ** The checkbox ([src/packages/react/checkbox/src/Checkbox.tsx]) *)

Module Checkbox.
Import Js.
Local Open Scope dom_scope.

Definition CHECKBOX_NAME : string := "Checkbox".
Definition INDICATOR_NAME : string := "CheckboxIndicator".

(** [type CheckedState = boolean | 'indeterminate']. *)
Inductive CheckedState : Type :=
| Boolean (b : bool)
| Indeterminate.

(** The spec's names for the two booleans. *)
Definition Checked : CheckedState := Boolean true.
Definition Unchecked : CheckedState := Boolean false.

(** [a === b] on checked states. *)
Definition strict_eq (a b : CheckedState) : bool :=
  match a, b with
  | Boolean x, Boolean y => Bool.eqb x y
  | Indeterminate, Indeterminate => true
  | _, _ => false
  end.

(** Truthiness: a boolean is itself, the string ['indeterminate'] is
    truthy, [undefined] is falsy. *)
Definition ToBoolean (c : CheckedState) : bool :=
  match c with
  | Boolean b => b
  | Indeterminate => true
  end.

Definition ToBoolean_opt (v : option CheckedState) : bool :=
  match v with
  | Some c => ToBoolean c
  | None => false
  end.

Definition getState (checked : CheckedState) : string :=
  if strict_eq checked Indeterminate then "indeterminate"
  else if ToBoolean checked then "checked" else "unchecked".

(** *** Checkbox *)

Record Props : Type := {
  checkedProp : option CheckedState;        (* checked?: CheckedState *)
  defaultChecked : option CheckedState;
  onCheckedChange : bool;                   (* whether the callback is supplied *)
  onClick : option (SyntheticEvent.t -> SyntheticEvent.t)
}.

(** What one mounted [Checkbox] keeps between renders. *)
Record Instance : Type := {
  uncontrolledProp : option CheckedState;   (* the cell of useControllableState *)
  hasConsumerStoppedPropagationRef : bool
}.

Definition mount (props : Props) : Instance :=
  {| uncontrolledProp := defaultChecked props;
     hasConsumerStoppedPropagationRef := false |}.

(** The props of an uncontrolled checkbox: no [checked]. *)
Definition uncontrolledProps (onCheckedChange : bool)
    (onClick : option (SyntheticEvent.t -> SyntheticEvent.t))
    (defaultChecked : option CheckedState) : Props :=
  {| checkedProp := None; defaultChecked := defaultChecked;
     onCheckedChange := onCheckedChange; onClick := onClick |}.

(** The props of a controlled checkbox: [checked] is given. *)
Definition controlledProps (onCheckedChange : bool)
    (onClick : option (SyntheticEvent.t -> SyntheticEvent.t))
    (external : CheckedState) (defaultChecked : option CheckedState) : Props :=
  {| checkedProp := Some external; defaultChecked := defaultChecked;
     onCheckedChange := onCheckedChange; onClick := onClick |}.

(** [const [checked = false, setChecked] = useControllableState({...})]. *)
Definition checked (props : Props) (inst : Instance) : CheckedState :=
  match ControllableState.currentValue (checkedProp props) (uncontrolledProp inst) with
  | Some value => value
  | None => Boolean false
  end.

(** [v === c] for a [v] that may be [undefined]. *)
Definition strict_eq_opt (v : option CheckedState) (c : CheckedState) : bool :=
  match v with
  | Some a => strict_eq a c
  | None => false
  end.

(** [(prevChecked) => (prevChecked === 'indeterminate' ? true : !prevChecked)];
    the previous value is [undefined] in an uncontrolled checkbox without
    [defaultChecked]. *)
Definition nextChecked (prevChecked : option CheckedState) : CheckedState :=
  if strict_eq_opt prevChecked Indeterminate
  then Boolean true
  else Boolean (negb (ToBoolean_opt prevChecked)).

(** The state a click handler runs in: the event it was given, the
    instance it closes over, and the calls made to [onCheckedChange]. *)
Record Click : Type := {
  event : SyntheticEvent.t;
  instance : Instance;
  notified : list CheckedState
}.

(** The consumer's [props.onClick] reaches the event only. *)
Definition consumer (handler : SyntheticEvent.t -> SyntheticEvent.t) (s : Click) : Click :=
  {| event := handler (event s); instance := instance s; notified := notified s |}.

(** The component's own click handler (lines 85-90). *)
Definition ourClickHandler (props : Props) (s : Click) : Click :=
  let '(cell, sent) :=
    ControllableState.setValue (checkedProp props) (onCheckedChange props)
      (ControllableState.Updater nextChecked) (uncontrolledProp (instance s)) in
  let stopped := SyntheticEvent.isPropagationStopped (event s) in
  (* stop propagation from the button so that we only propagate one click
     event (from the input) *)
  {| event := SyntheticEvent.stopPropagation (event s);
     instance := {| uncontrolledProp := cell;
                    hasConsumerStoppedPropagationRef := stopped |};
     notified := (notified s ++ sent)%list |}.

(** [onClick={composeEventHandlers(props.onClick, (event) => ...)}]. *)
Definition handleClick (props : Props) : Click -> Click :=
  composeEventHandlers (option_map consumer (onClick props)) (ourClickHandler props).

(** One click on the visible control. *)
Definition click (props : Props) (inst : Instance) (e : SyntheticEvent.t) : Click :=
  handleClick props {| event := e; instance := inst; notified := [] |}.

(** The hidden input's [onClickCapture] (lines 107-109). *)
Definition onClickCapture (inst : Instance) (e : SyntheticEvent.t) : SyntheticEvent.t :=
  if hasConsumerStoppedPropagationRef inst then SyntheticEvent.stopPropagation e else e.

(** [n] clicks in a row, the props staying as they are. *)
Fixpoint clicks (props : Props) (events : list SyntheticEvent.t) (inst : Instance) : Instance :=
  match events with
  | [] => inst
  | e :: events' => clicks props events' (instance (click props inst e))
  end.

(** *** CheckboxIndicator *)

Record CheckboxContextValue : Type := {
  state : CheckedState;
  disabled : option bool
}.

(** [createContext<CheckboxContextValue>(CHECKBOX_NAME)]: no default. *)
Definition CheckboxProvider := fst (Context.createContext CHECKBOX_NAME (@None (Context.ContextValueType CheckboxContextValue))).
Definition useCheckboxContext := snd (Context.createContext CHECKBOX_NAME (@None (Context.ContextValueType CheckboxContextValue))).

(** [forceMount || context.state === 'indeterminate' || context.state === true];
    [forceMount?: true] is [true] when set and [false] when left out. *)
Definition present (forceMount : bool) (context : CheckboxContextValue) : bool :=
  forceMount || strict_eq (state context) Indeterminate || strict_eq (state context) (Boolean true).

(** The [present] prop [CheckboxIndicator] hands to [Presence]. *)
Definition CheckboxIndicator (forceMount : bool)
    (tree : Context.Enclosing CheckboxContextValue) : Completion bool :=
  match useCheckboxContext INDICATOR_NAME tree with
  | Return (Context.JsObject context) => Return (present forceMount context)
  | Return Context.JsNull => Throw TypeError   (* context.state on null *)
  | Throw e => Throw e
  end.

(** *** BubbleInput *)

(** The hooks of one mounted [BubbleInput]: the slot of [usePrevious]
    and the dependencies of the effect as last committed. *)
Record Hooks : Type := {
  previous : option CheckedState;
  effectDeps : option (CheckedState * CheckedState)
}.

Definition unmounted : Hooks := {| previous := None; effectDeps := None |}.

(** [new Event('click', { bubbles: true })]. *)
Definition clickEvent : Dom.Event := {| Dom.type := "click"; Dom.bubbles := true |}.

(** The body of the effect (lines 172-182). *)
Definition effect (window : Dom.Window) (prevChecked checked : CheckedState) : Dom.M unit :=
  let isIndeterminate := strict_eq checked Indeterminate in
  let event := clickEvent in
  (* [descriptor.set] on a descriptor the host does not have *)
  setChecked <- match Dom.getOwnPropertyDescriptor_checked window with
                | Some descriptor => Dom.ret (Dom.set descriptor)
                | None => Dom.throw TypeError
                end ;;
  match negb (strict_eq prevChecked checked), setChecked with
  | true, Some setChecked =>
      Dom.set_indeterminate isIndeterminate ;;;
      Dom.call_setter setChecked (if isIndeterminate then false else ToBoolean checked) ;;;
      Dom.dispatchEvent event
  | _, _ => Dom.ret tt
  end.

(** [React.useEffect(f, deps)]: [f] runs after the mount render, and
    after a render in which a dependency changed. *)
Definition depsChanged (last : option (CheckedState * CheckedState))
    (deps : CheckedState * CheckedState) : bool :=
  match last with
  | None => true
  | Some (a, b) => negb (strict_eq a (fst deps) && strict_eq b (snd deps))
  end.

(** One render of [BubbleInput] with its effect. *)
Definition BubbleInput (window : Dom.Window) (checked : CheckedState) (hooks : Hooks)
  : Dom.M Hooks :=
  let '(prevChecked, slot) := usePrevious checked (previous hooks) in
  let deps := (prevChecked, checked) in
  let hooks' := {| previous := slot; effectDeps := Some deps |} in
  if depsChanged (effectDeps hooks) deps
  then effect window prevChecked checked ;;; Dom.ret hooks'
  else Dom.ret hooks'.

(** A sequence of renders; a throwing effect ends it. *)
Fixpoint renders (window : Dom.Window) (cs : list CheckedState) (hooks : Hooks)
  : Dom.M Hooks :=
  match cs with
  | [] => Dom.ret hooks
  | c :: cs' => hooks' <- BubbleInput window c hooks ;; renders window cs' hooks'
  end.

(** The input as React creates it: [checked] is not among its props. *)
Definition freshInput : Dom.HTMLInputElement :=
  {| Dom.indeterminate := false; Dom.checked := false |}.

(** The life of a [BubbleInput] from its mount through the renders [cs]. *)
Definition life (window : Dom.Window) (cs : list CheckedState) : Dom.Outcome Hooks :=
  renders window cs unmounted freshInput.

(** The render that follows the renders [cs], with state [c]. *)
Definition nextRender (window : Dom.Window) (cs : list CheckedState) (c : CheckedState)
  : Dom.Outcome Hooks :=
  let before := life window cs in
  match Dom.completion before with
  | Return hooks => BubbleInput window c hooks (Dom.node before)
  | Throw e => {| Dom.completion := Throw e; Dom.node := Dom.node before; Dom.ops := [] |}
  end.

(** Whether a render with state [c] is a transition: the previous
    render carried another state. *)
Definition transition (cs : list CheckedState) (c : CheckedState) : bool :=
  match cs with
  | [] => false
  | _ => negb (strict_eq (last cs c) c)
  end.

(** The number of transitions in a sequence of renders. *)
Fixpoint transitions (cs : list CheckedState) : nat :=
  match cs with
  | a :: (b :: _) as rest => (if strict_eq a b then 0 else 1) + transitions rest
  | _ => 0
  end.

(** The state of the node once a render with state [c] has synchronised
    it through the setter [setChecked], and the operations that does. *)
Definition synced (setChecked : Dom.HTMLInputElement -> bool -> Dom.HTMLInputElement)
    (c : CheckedState) (input : Dom.HTMLInputElement) : Dom.HTMLInputElement :=
  setChecked
    {| Dom.indeterminate := strict_eq c Indeterminate; Dom.checked := Dom.checked input |}
    (if strict_eq c Indeterminate then false else ToBoolean c).

Definition syncOps (setChecked : Dom.HTMLInputElement -> bool -> Dom.HTMLInputElement)
    (c : CheckedState) (input : Dom.HTMLInputElement) : list Dom.Op :=
  [ Dom.SetIndeterminate (strict_eq c Indeterminate);
    Dom.SetChecked (if strict_eq c Indeterminate then false else ToBoolean c);
    Dom.DispatchEvent clickEvent (synced setChecked c input) ].

(** The hooks after a render that carried [p]. *)
Definition settled (hooks : Hooks) (p : CheckedState) : Prop :=
  previous hooks = Some p /\ exists x, effectDeps hooks = Some (x, p).

(** *** The rendered attributes *)

(** [aria-checked={checked === 'indeterminate' ? 'mixed' : checked}]
    (line 75): the string ['mixed'] or the boolean, as computed before
    the consumer's rest props are spread over the button (line 82). *)
Inductive AriaChecked : Type :=
| Mixed
| AriaBoolean (b : bool).

Definition ariaChecked (checked : CheckedState) : AriaChecked :=
  if strict_eq checked Indeterminate then Mixed else AriaBoolean (ToBoolean checked).

(** [data-disabled], the empty string when [disabled] is truthy and
    [undefined] otherwise (lines 79 and 147), for [disabled?: boolean]. *)
Definition dataDisabled (disabled : option bool) : option string :=
  if match disabled with Some b => b | None => false end then Some EmptyString else None.

(** [<CheckboxProvider state={checked} disabled={disabled}>] (line 71):
    the tree the children of a [Checkbox] are rendered in. *)
Definition children (props : Props) (disabled : option bool) (inst : Instance)
    (tree : Context.Enclosing CheckboxContextValue)
  : Context.Enclosing CheckboxContextValue :=
  CheckboxProvider {| state := checked props inst; disabled := disabled |} tree.

(** What [CheckboxIndicator] computes from the context (lines 142-147):
    the [present] prop of [Presence] and the two data attributes, before
    the consumer's own props are spread over them. *)
Record IndicatorAttributes : Type := {
  indicatorPresent : bool;
  indicatorState : string;
  indicatorDisabled : option string
}.

Definition CheckboxIndicatorAttributes (forceMount : bool)
    (tree : Context.Enclosing CheckboxContextValue) : Completion IndicatorAttributes :=
  match useCheckboxContext INDICATOR_NAME tree with
  | Return (Context.JsObject context) =>
      Return {| indicatorPresent := present forceMount context;
                indicatorState := getState (state context);
                indicatorDisabled := dataDisabled (disabled context) |}
  | Return Context.JsNull => Throw TypeError   (* context.state on null *)
  | Throw e => Throw e
  end.

(** *** A mounted checkbox with its hidden input *)

(** One [Checkbox] and the [BubbleInput] it renders (lines 93-110). *)
Record Mounted : Type := {
  checkbox : Instance;
  bubble : Hooks
}.

(** A render of [Checkbox]: [<BubbleInput checked={checked} ... />]. *)
Definition render (window : Dom.Window) (props : Props) (m : Mounted) : Dom.M Mounted :=
  hooks <- BubbleInput window (checked props (checkbox m)) (bubble m) ;;
  Dom.ret {| checkbox := checkbox m; bubble := hooks |}.

Definition mountCheckbox (window : Dom.Window) (props : Props) : Dom.M Mounted :=
  render window props {| checkbox := mount props; bubble := unmounted |}.

(** A click on the button, and the render that follows it. *)
Definition activate (window : Dom.Window) (props : Props) (e : SyntheticEvent.t)
    (m : Mounted) : Dom.M Mounted :=
  render window props {| checkbox := instance (click props (checkbox m) e);
                         bubble := bubble m |}.

Fixpoint activations (window : Dom.Window) (props : Props) (events : list SyntheticEvent.t)
    (m : Mounted) : Dom.M Mounted :=
  match events with
  | [] => Dom.ret m
  | e :: events' => m' <- activate window props e m ;; activations window props events' m'
  end.

(** The mount of a checkbox and the clicks [events], the props staying
    as they are. *)
Definition session (window : Dom.Window) (props : Props) (events : list SyntheticEvent.t)
  : Dom.Outcome Mounted :=
  (m <- mountCheckbox window props ;; activations window props events m) freshInput.

(** The click that follows the session [events]. *)
Definition nextActivation (window : Dom.Window) (props : Props)
    (events : list SyntheticEvent.t) (e : SyntheticEvent.t) : Dom.Outcome Mounted :=
  let before := session window props events in
  match Dom.completion before with
  | Return m => activate window props e m (Dom.node before)
  | Throw err => {| Dom.completion := Throw err; Dom.node := Dom.node before; Dom.ops := [] |}
  end.

(** *** The bridge as a fold *)

(** The node a render with state [c] leaves when the platform's setter
    synchronised it. *)
Definition mirror (c : CheckedState) : Dom.HTMLInputElement :=
  {| Dom.indeterminate := strict_eq c Indeterminate;
     Dom.checked := if strict_eq c Indeterminate then false else ToBoolean c |}.

(** The renders [cs] after a render with state [p], as a fold over the
    node: each render that changes the state synchronises, if a setter
    was located. *)
Fixpoint mirrorRun (setChecked : option (Dom.HTMLInputElement -> bool -> Dom.HTMLInputElement))
    (p : CheckedState) (cs : list CheckedState) (input : Dom.HTMLInputElement)
  : Dom.HTMLInputElement * list Dom.Op :=
  match cs with
  | [] => (input, [])
  | c :: cs' =>
      match negb (strict_eq p c), setChecked with
      | true, Some f =>
          let '(input', l) := mirrorRun setChecked c cs' (synced f c input) in
          (input', (syncOps f c input ++ l)%list)
      | _, _ => mirrorRun setChecked c cs' input
      end
  end.

(** The renders [cs] without those that repeat the state of the render
    before them, [p] being the state before the first. *)
Fixpoint dropRepeats (p : CheckedState) (cs : list CheckedState) : list CheckedState :=
  match cs with
  | [] => []
  | c :: cs' => if strict_eq p c then dropRepeats c cs' else c :: dropRepeats c cs'
  end.

Definition distinctRenders (cs : list CheckedState) : list CheckedState :=
  match cs with
  | [] => []
  | a :: cs' => a :: dropRepeats a cs'
  end.

Definition is_set_indeterminate (op : Dom.Op) : bool :=
  match op with Dom.SetIndeterminate _ => true | _ => false end.

Definition is_set_checked (op : Dom.Op) : bool :=
  match op with Dom.SetChecked _ => true | _ => false end.

(** Every event an operation dispatches is a bubbling [click]. *)
Definition dispatches_click (op : Dom.Op) : bool :=
  match op with
  | Dom.DispatchEvent e _ => String.eqb (Dom.type e) "click" && Dom.bubbles e
  | _ => true
  end.

End Checkbox.

(* ------------------------------------------------------------------ *)
(** ** The memo inside [Provider] ([src/unnamed/part_000], lines 11-16) *)

Module ProviderMemo.

Section useMemo.

(** The props object without [children], and the values it holds. *)
Variable V : Type.
Variable Val : Type.

(** [Object.values(providerProps)]. *)
Variable Object_values : V -> list Val.

(** [Object.is(a, b)]. *)
Variable Object_is : Val -> Val -> bool.

(** React's comparison of two dependency arrays: [Object.is], position
    by position, as far as both arrays go. *)
Fixpoint areHookInputsEqual (nextDeps prevDeps : list Val) : bool :=
  match nextDeps, prevDeps with
  | a :: nextDeps', b :: prevDeps' => Object_is a b && areHookInputsEqual nextDeps' prevDeps'
  | _, _ => true
  end.

(** What [React.useMemo] keeps between renders. *)
Record Memo : Type := {
  memoizedValue : V;
  memoizedDeps : list Val
}.

(** [React.useMemo(() => create, deps)]: the value of the last render
    whose dependencies differed, and the cell for the next render. *)
Definition React_useMemo (create : V) (deps : list Val) (cell : option Memo)
  : V * option Memo :=
  match cell with
  | Some memo =>
      if areHookInputsEqual deps (memoizedDeps memo)
      then (memoizedValue memo, cell)
      else (create, Some {| memoizedValue := create; memoizedDeps := deps |})
  | None => (create, Some {| memoizedValue := create; memoizedDeps := deps |})
  end.

(** [Provider(props)] with its memo (lines 9-18): the value broadcast to
    the children, and the memo cell after the render. *)
Definition Provider (providerProps : V) (cell : option Memo) : V * option Memo :=
  (* Only re-memoize when prop values change *)
  React_useMemo providerProps (Object_values providerProps) cell.

(** The tree the children of a [Provider] are rendered in (line 17):
    [<Context.Provider value={value}>], [value] being what the memo gave. *)
Definition children (providerProps : V) (cell : option Memo) (tree : Context.Enclosing V)
  : Context.Enclosing V :=
  let value := fst (Provider providerProps cell) in
  Some (Context.JsObject value) :: tree.

(** The cell holds a value together with the values it was made from. *)
Definition coherent (cell : option Memo) : Prop :=
  match cell with
  | Some memo => memoizedDeps memo = Object_values (memoizedValue memo)
  | None => True
  end.

(** The renders of one mounted [Provider] with the props [ps] in turn:
    the values broadcast, render by render. *)
Fixpoint broadcasts (ps : list V) (cell : option Memo) : list V :=
  match ps with
  | [] => []
  | providerProps :: ps' =>
      let '(value, cell') := Provider providerProps cell in
      value :: broadcasts ps' cell'
  end.

End useMemo.

(** The two values of a [CheckboxContextValue]. *)
Inductive CheckboxValue : Type :=
| StateValue (state : Checkbox.CheckedState)
| DisabledValue (disabled : option bool).

Definition CheckboxValue_is (a b : CheckboxValue) : bool :=
  match a, b with
  | StateValue x, StateValue y => Checkbox.strict_eq x y
  | DisabledValue (Some x), DisabledValue (Some y) => Bool.eqb x y
  | DisabledValue None, DisabledValue None => true
  | _, _ => false
  end.

(** [Object.values({ state, disabled })]. *)
Definition CheckboxContextValue_values (c : Checkbox.CheckboxContextValue)
  : list CheckboxValue :=
  [StateValue (Checkbox.state c); DisabledValue (Checkbox.disabled c)].


End ProviderMemo.

(* ================================================================== *)
(** * Properties *)

Unset Implicit Arguments.

(** ** Substrings *)

Lemma prefix_app (t r : string) : String.prefix t (t ++ r) = true.
Proof.
  induction t as [|a t IH]; simpl.
  - destruct r; reflexivity.
  - destruct (Ascii.ascii_dec a a) as [_|ne]; [exact IH | contradiction].
Qed.

Lemma includes_here (t r : string) : Js.includes (t ++ r) t = true.
Proof.
  destruct t as [|a t]; [destruct r; reflexivity|].
  change (Js.includes (String a t ++ r) (String a t))
    with (if String.prefix (String a t) (String a t ++ r) then true
          else Js.includes (t ++ r) (String a t)).
  now rewrite prefix_app.
Qed.

Lemma includes_skip (a s t : string) :
  Js.includes s t = true -> Js.includes (a ++ s) t = true.
Proof.
  intros H. induction a as [|c a IH]; [exact H|].
  change (Js.includes (String c a ++ s) t)
    with (if String.prefix t (String c (a ++ s)) then true else Js.includes (a ++ s) t).
  rewrite IH. now destruct (String.prefix t (String c (a ++ s))).
Qed.

Lemma includes_middle (a t b : string) : Js.includes (a ++ t ++ b) t = true.
Proof. apply includes_skip, includes_here. Qed.

(** ** The context factory *)

Section ContextFactory.

Import Js Context.

Variable V : Type.
Variables rootComponentName consumerName : string.

Lemma message_names_consumer :
  includes (missingProviderMessage rootComponentName consumerName) consumerName = true.
Proof. unfold missingProviderMessage. apply (includes_middle "`"). Qed.

Lemma message_names_root :
  includes (missingProviderMessage rootComponentName consumerName) rootComponentName = true.
Proof.
  unfold missingProviderMessage.
  apply (includes_skip "`"), includes_skip, (includes_middle "` must be used within `").
Qed.

Lemma useContext_nearest (defaultContext : option (ContextValueType V))
    (value : ContextValueType V) (tree : Enclosing V) :
  useContext rootComponentName defaultContext consumerName (Some value :: tree)
  = Return value.
Proof. reflexivity. Qed.

Lemma useContext_throws_iff_no_default (defaultContext : option (ContextValueType V)) :
  throws (useContext rootComponentName defaultContext consumerName []) = true
  <-> defaultContext = None.
Proof.
  unfold useContext; simpl.
  destruct defaultContext as [d|]; simpl; split; intro H; congruence.
Qed.

End ContextFactory.

(** C6.  With no enclosing Provider, the accessor of a factory built
    without a default throws an [Error] whose message contains the
    consumer's name and the root component's name, and the accessor of a
    factory built with a default returns that default.  Under a Provider
    the accessor returns the value the nearest Provider broadcasts,
    whatever the default: for a render of [Provider] that is the value its
    memo gives, which on the mount render is the props themselves. *)
Theorem useContext_required_or_defaulted :
  forall (V : Type) (rootComponentName consumerName : string),
    (exists message,
        Context.useContext rootComponentName (@None (Context.ContextValueType V)) consumerName []
        = Js.Throw (Js.Error message)
        /\ Js.includes message consumerName = true
        /\ Js.includes message rootComponentName = true)
    /\ (forall d : Context.ContextValueType V,
           Context.useContext rootComponentName (Some d) consumerName [] = Js.Return d)
    /\ (forall (defaultContext : option (Context.ContextValueType V))
               (value : Context.ContextValueType V) (tree : Context.Enclosing V),
           Context.useContext rootComponentName defaultContext consumerName
             (Some value :: tree)
           = Js.Return value)
    /\ (forall (defaultContext : option (Context.ContextValueType V)) (Val : Type)
               (Object_values : V -> list Val) (Object_is : Val -> Val -> bool)
               (providerProps : V) (cell : option (ProviderMemo.Memo V Val))
               (tree : Context.Enclosing V),
           Context.useContext rootComponentName defaultContext consumerName
             (ProviderMemo.children Object_values Object_is providerProps cell tree)
           = Js.Return
               (Context.JsObject
                  (fst (ProviderMemo.Provider Object_values Object_is providerProps cell))))
    /\ (forall (defaultContext : option (Context.ContextValueType V)) (Val : Type)
               (Object_values : V -> list Val) (Object_is : Val -> Val -> bool)
               (providerProps : V) (tree : Context.Enclosing V),
           Context.useContext rootComponentName defaultContext consumerName
             (ProviderMemo.children Object_values Object_is providerProps None tree)
           = Js.Return (Context.JsObject providerProps)).
Proof.
  intros V root consumer. split; [|split; [|split; [|split]]].
  - exists (Context.missingProviderMessage root consumer). split; [reflexivity|].
    split; [apply message_names_consumer | apply message_names_root].
  - reflexivity.
  - intros. apply useContext_nearest.
  - intros. unfold ProviderMemo.children. apply useContext_nearest.
  - intros. reflexivity.
Qed.

(** C10.  The policy of the factory turns on [undefined] alone: built
    with [null] as its default, the accessor without a Provider returns
    [null] and does not throw; and without a Provider the accessor
    throws exactly when the default is [undefined]. *)
Theorem null_default_is_a_default :
  forall (V : Type) (rootComponentName consumerName : string),
    Context.useContext rootComponentName (Some (@Context.JsNull V)) consumerName []
    = Js.Return Context.JsNull
    /\ (forall defaultContext : option (Context.ContextValueType V),
           Js.throws (Context.useContext rootComponentName defaultContext consumerName []) = true
           <-> defaultContext = None).
Proof.
  intros V root consumer. split; [reflexivity|].
  intros d. apply useContext_throws_iff_no_default.
Qed.

(** ** The toggle state machine and the indicator *)

Section ToggleStateMachine.

Import Checkbox.

Lemma strict_eq_true (a b : CheckedState) : strict_eq a b = true <-> a = b.
Proof.
  destruct a as [[]|], b as [[]|]; simpl; split; intro H;
    congruence || reflexivity.
Qed.

Lemma strict_eq_refl (a : CheckedState) : strict_eq a a = true.
Proof. now apply strict_eq_true. Qed.

Lemma nextChecked_determinate (prev : option CheckedState) :
  nextChecked prev <> Indeterminate.
Proof. destruct prev as [[[]|]|]; discriminate. Qed.

(** Activations on the bare transition function alternate. *)
Lemma iter_nextChecked (n : nat) :
  Nat.iter n (fun s => nextChecked (Some s)) Unchecked = Boolean (Nat.odd n).
Proof.
  induction n as [|n IH]; [reflexivity|].
  rewrite Nat.iter_succ, IH, Nat.odd_succ, <- Nat.negb_odd.
  now destruct (Nat.odd n).
Qed.

Variable onCheckedChange : bool.
Variable onClick : option (SyntheticEvent.t -> SyntheticEvent.t).

Local Abbreviation uncontrolled := (uncontrolledProps onCheckedChange onClick).
Local Abbreviation controlled := (controlledProps onCheckedChange onClick).

Lemma click_uncontrolled (d : option CheckedState) (inst : Instance) (e : SyntheticEvent.t) :
  uncontrolledProp (instance (click (uncontrolled d) inst e))
  = Some (nextChecked (uncontrolledProp inst)).
Proof. unfold click, handleClick, composeEventHandlers; simpl. destruct onClick; reflexivity. Qed.

Lemma click_controlled (x : CheckedState) (d : option CheckedState) (inst : Instance)
    (e : SyntheticEvent.t) :
  uncontrolledProp (instance (click (controlled x d) inst e)) = uncontrolledProp inst.
Proof. unfold click, handleClick, composeEventHandlers; simpl. destruct onClick; reflexivity. Qed.

Lemma clicks_uncontrolled (d : option CheckedState) (events : list SyntheticEvent.t) :
  forall inst b,
    checked (uncontrolled d) inst = Boolean b ->
    checked (uncontrolled d) (clicks (uncontrolled d) events inst)
    = Boolean (xorb b (Nat.odd (List.length events))).
Proof.
  induction events as [|e events IH]; intros inst b Hb.
  - simpl. now rewrite xorb_false_r.
  - change (clicks (uncontrolled d) (e :: events) inst)
      with (clicks (uncontrolled d) events (instance (click (uncontrolled d) inst e))).
    rewrite (IH _ (negb b)).
    + change (List.length (e :: events)) with (S (List.length events)).
      rewrite Nat.odd_succ, <- Nat.negb_odd.
      now destruct b, (Nat.odd (List.length events)).
    + unfold checked in *. rewrite click_uncontrolled. simpl in *.
      destruct (uncontrolledProp inst) as [[[]|]|]; simpl in *;
        try discriminate; injection Hb as <-; reflexivity.
Qed.

Lemma clicks_controlled (x : CheckedState) (d : option CheckedState)
    (events : list SyntheticEvent.t) :
  forall inst, checked (controlled x d) (clicks (controlled x d) events inst) = x.
Proof. intros inst. reflexivity. Qed.

End ToggleStateMachine.

(** C2.  The transition applied on activation sends Indeterminate to
    Checked, Checked to Unchecked and Unchecked to Checked, and never
    yields Indeterminate.  Hence [n] activations from Unchecked leave
    Checked when [n] is odd and Unchecked when it is even, on the bare
    transition and on an uncontrolled checkbox mounted Unchecked (by
    [defaultChecked = false] or by no default at all); and an uncontrolled
    checkbox is never Indeterminate after an activation. *)
Theorem activation_alternates :
  (Checkbox.nextChecked (Some Checkbox.Indeterminate) = Checkbox.Checked
   /\ Checkbox.nextChecked (Some Checkbox.Checked) = Checkbox.Unchecked
   /\ Checkbox.nextChecked (Some Checkbox.Unchecked) = Checkbox.Checked)
  /\ (forall prev, Checkbox.nextChecked prev <> Checkbox.Indeterminate)
  /\ (forall n,
         Nat.iter n (fun s => Checkbox.nextChecked (Some s)) Checkbox.Unchecked
         = Checkbox.Boolean (Nat.odd n))
  /\ (forall onCheckedChange onClick events,
         let props := Checkbox.uncontrolledProps onCheckedChange onClick
                        (Some Checkbox.Unchecked) in
         Checkbox.checked props (Checkbox.clicks props events (Checkbox.mount props))
         = Checkbox.Boolean (Nat.odd (List.length events)))
  /\ (forall onCheckedChange onClick events,
         let props := Checkbox.uncontrolledProps onCheckedChange onClick None in
         Checkbox.checked props (Checkbox.clicks props events (Checkbox.mount props))
         = Checkbox.Boolean (Nat.odd (List.length events)))
  /\ (forall onCheckedChange onClick defaultChecked inst e events,
         let props := Checkbox.uncontrolledProps onCheckedChange onClick defaultChecked in
         Checkbox.checked props (Checkbox.clicks props (e :: events) inst)
         <> Checkbox.Indeterminate).
Proof.
  split; [repeat split|]. split; [apply nextChecked_determinate|].
  split; [apply iter_nextChecked|]. split.
  - intros oc ok events props.
    apply (clicks_uncontrolled oc ok (Some Checkbox.Unchecked) events
             (Checkbox.mount props) false).
    reflexivity.
  - split.
    { intros oc ok events props.
      apply (clicks_uncontrolled oc ok None events (Checkbox.mount props) false).
      reflexivity. }
    intros oc ok d inst e events props.
    change (Checkbox.clicks props (e :: events) inst)
      with (Checkbox.clicks props events (Checkbox.instance (Checkbox.click props inst e))).
    assert (H : exists b, Checkbox.checked props
                            (Checkbox.instance (Checkbox.click props inst e))
                          = Checkbox.Boolean b).
    { unfold Checkbox.checked. subst props. rewrite click_uncontrolled. simpl.
      destruct (Checkbox.uncontrolledProp inst) as [[[]|]|]; cbv; eauto. }
    destruct H as [b Hb]. subst props.
    rewrite (clicks_uncontrolled oc ok d events _ b Hb). discriminate.
Qed.

(** C7.  The indicator is present if and only if [forceMount] is set or
    the state read from the checkbox context is Checked or Indeterminate;
    it is absent when the state is Unchecked and [forceMount] is not set.
    Under a [CheckboxProvider], [CheckboxIndicator] computes exactly this
    from the provided value. *)
Theorem indicator_present_iff :
  forall (forceMount : bool) (context : Checkbox.CheckboxContextValue),
    (Checkbox.present forceMount context = true
     <-> forceMount = true
         \/ Checkbox.state context = Checkbox.Checked
         \/ Checkbox.state context = Checkbox.Indeterminate)
    /\ (forall disabled,
           Checkbox.present false
             {| Checkbox.state := Checkbox.Unchecked; Checkbox.disabled := disabled |} = false)
    /\ (forall tree,
           Checkbox.CheckboxIndicator forceMount (Checkbox.CheckboxProvider context tree)
           = Js.Return (Checkbox.present forceMount context)).
Proof.
  intros forceMount [state disabled]. split; [|split; reflexivity].
  unfold Checkbox.present; simpl.
  destruct forceMount, state as [[]|]; simpl; split; intro H; auto;
    try discriminate; destruct H as [H|[H|H]]; discriminate.
Qed.

(** C8.  A controlled checkbox reads the external value, whatever its
    instance holds; a click, or any number of clicks, under the same props
    leaves the next read at the external value.  Built with
    [checked = Indeterminate] and no [onCheckedChange], a click computes
    Checked, notifies nobody, and the state read stays Indeterminate. *)
Theorem controlled_reads_external :
  forall onCheckedChange onClick external defaultChecked,
    let props := Checkbox.controlledProps onCheckedChange onClick external defaultChecked in
    (forall inst, Checkbox.checked props inst = external)
    /\ (forall inst e,
           Checkbox.checked props (Checkbox.instance (Checkbox.click props inst e)) = external
           /\ Checkbox.uncontrolledProp (Checkbox.instance (Checkbox.click props inst e))
              = Checkbox.uncontrolledProp inst
           /\ Checkbox.notified (Checkbox.click props inst e)
              = ControllableState.notify onCheckedChange
                  (Checkbox.nextChecked (Some external)))
    /\ (forall inst events, Checkbox.checked props (Checkbox.clicks props events inst) = external)
    /\ (let props := Checkbox.controlledProps false None Checkbox.Indeterminate None in
        let inst := Checkbox.mount props in
        ControllableState.resolve (ControllableState.Updater Checkbox.nextChecked)
          (ControllableState.currentValue (Checkbox.checkedProp props)
             (Checkbox.uncontrolledProp inst))
        = Checkbox.Checked
        /\ Checkbox.notified (Checkbox.click props inst SyntheticEvent.fresh) = []
        /\ Checkbox.checked props
             (Checkbox.instance (Checkbox.click props inst SyntheticEvent.fresh))
           = Checkbox.Indeterminate).
Proof.
  intros oc ok x d props. split; [reflexivity|]. split; [|split].
  - intros inst e. split; [reflexivity|].
    subst props. split; [apply click_controlled|].
    unfold Checkbox.click, Checkbox.handleClick, composeEventHandlers; simpl.
    destruct ok; reflexivity.
  - reflexivity.
  - repeat split.
Qed.

(** C5.  The own handler of the visible control stores in its ref whether
    the event it is given already had its propagation stopped, and leaves
    the event with propagation stopped in every case.  On a click that is
    the event as the consumer's [onClick] left it; the hidden input's
    capture listener then stops the propagation of its own event exactly
    when that stored flag is set. *)
Theorem click_propagation_relay :
  forall (props : Checkbox.Props) (inst : Checkbox.Instance) (e : SyntheticEvent.t),
    let seen := match Checkbox.onClick props with
                | Some handler => handler e
                | None => e
                end in
    let after := Checkbox.click props inst e in
    (forall s : Checkbox.Click,
        Checkbox.hasConsumerStoppedPropagationRef
          (Checkbox.instance (Checkbox.ourClickHandler props s))
        = SyntheticEvent.isPropagationStopped (Checkbox.event s)
        /\ SyntheticEvent.isPropagationStopped
             (Checkbox.event (Checkbox.ourClickHandler props s)) = true)
    /\ Checkbox.hasConsumerStoppedPropagationRef (Checkbox.instance after)
       = SyntheticEvent.isPropagationStopped seen
    /\ SyntheticEvent.isPropagationStopped (Checkbox.event after) = true
    /\ (forall e' : SyntheticEvent.t,
           Checkbox.onClickCapture (Checkbox.instance after) e'
           = if SyntheticEvent.isPropagationStopped seen
             then SyntheticEvent.stopPropagation e' else e')
    /\ (forall defaultPrevented,
           let e' := {| SyntheticEvent.propagationStopped := false;
                        SyntheticEvent.defaultPrevented := defaultPrevented |} in
           SyntheticEvent.isPropagationStopped
             (Checkbox.onClickCapture (Checkbox.instance after) e')
           = SyntheticEvent.isPropagationStopped seen).
Proof.
  intros props inst e seen after.
  assert (Href : Checkbox.hasConsumerStoppedPropagationRef (Checkbox.instance after)
                 = SyntheticEvent.isPropagationStopped seen).
  { subst seen after.
    unfold Checkbox.click, Checkbox.handleClick, composeEventHandlers,
      Checkbox.ourClickHandler.
    destruct (Checkbox.onClick props); simpl;
      destruct (ControllableState.setValue _ _ _ _); reflexivity. }
  split.
  { intros s. unfold Checkbox.ourClickHandler.
    destruct (ControllableState.setValue _ _ _ _). now split. }
  split; [exact Href|]. split; [|split].
  - subst after.
    unfold Checkbox.click, Checkbox.handleClick, composeEventHandlers,
      Checkbox.ourClickHandler.
    destruct (Checkbox.onClick props); simpl;
      destruct (ControllableState.setValue _ _ _ _); reflexivity.
  - intros e'. unfold Checkbox.onClickCapture. now rewrite Href.
  - intros dp e'. unfold Checkbox.onClickCapture. rewrite Href.
    now destruct (SyntheticEvent.isPropagationStopped seen).
Qed.

(** ** The native bridge *)

Section DomMonad.

Import Js Dom.
Local Open Scope dom_scope.

Lemma outcome_eta {A : Type} (r : Outcome A) :
  {| completion := completion r; node := node r; ops := ops r |} = r.
Proof. now destruct r. Qed.

Lemma bind_ret_l {A B : Type} (a : A) (k : A -> M B) (input : HTMLInputElement) :
  bind (ret a) k input = k a input.
Proof. unfold bind, ret; simpl. apply outcome_eta. Qed.

Lemma bind_ret_r {A : Type} (m : M A) (input : HTMLInputElement) :
  bind m ret input = m input.
Proof.
  unfold bind, ret. destruct (m input) as [[a|e] n l]; simpl; [|reflexivity].
  now rewrite app_nil_r.
Qed.

Lemma bind_ext {A B : Type} (m : M A) (k k' : A -> M B) (input : HTMLInputElement) :
  (forall a n, k a n = k' a n) -> bind m k input = bind m k' input.
Proof.
  intros H. unfold bind. destruct (completion (m input)); [|reflexivity].
  now rewrite H.
Qed.

Lemma bind_assoc {A B C : Type} (m : M A) (k : A -> M B) (g : B -> M C)
    (input : HTMLInputElement) :
  bind (bind m k) g input = bind m (fun a => bind (k a) g) input.
Proof.
  unfold bind. destruct (m input) as [[a|e] n l]; simpl; [|reflexivity].
  destruct (k a n) as [[b|e] n' l']; simpl; [|reflexivity].
  destruct (g b n') as [c n'' l'']; simpl. now rewrite app_assoc.
Qed.

End DomMonad.

Section NativeBridge.

Import Js Dom Checkbox.
Local Open Scope dom_scope.

Lemma renders_snoc (window : Window) (cs : list CheckedState) (c : CheckedState) :
  forall hooks input,
    renders window (cs ++ [c]) hooks input
    = bind (renders window cs hooks) (BubbleInput window c) input.
Proof.
  induction cs as [|a cs IH]; intros hooks input.
  - change (renders window ([] ++ [c]) hooks)
      with (bind (BubbleInput window c hooks) (fun h => ret h)).
    change (renders window [] hooks) with (@ret Hooks hooks).
    now rewrite bind_ret_l, bind_ret_r.
  - change (renders window ((a :: cs) ++ [c]) hooks)
      with (bind (BubbleInput window a hooks) (fun h => renders window (cs ++ [c]) h)).
    change (renders window (a :: cs) hooks)
      with (bind (BubbleInput window a hooks) (fun h => renders window cs h)).
    rewrite bind_assoc. apply bind_ext. intros h n. apply IH.
Qed.

(** The last render of a life is [nextRender]. *)
Lemma life_snoc (window : Window) (cs : list CheckedState) (c : CheckedState) :
  ops (life window (cs ++ [c])) = (ops (life window cs) ++ ops (nextRender window cs c))%list
  /\ (throws (completion (life window cs)) = false ->
      node (life window (cs ++ [c])) = node (nextRender window cs c)
      /\ completion (life window (cs ++ [c])) = completion (nextRender window cs c)).
Proof.
  unfold life, nextRender. rewrite renders_snoc. unfold bind, life.
  destruct (renders window cs unmounted freshInput) as [[h|e] n l]; simpl.
  - now split.
  - split; [now rewrite app_nil_r | discriminate].
Qed.

(** *** One render *)

Variable window : Window.

Lemma effect_without_descriptor (prev c : CheckedState) (input : HTMLInputElement) :
  getOwnPropertyDescriptor_checked window = None ->
  effect window prev c input
  = {| completion := Throw TypeError; node := input; ops := [] |}.
Proof. intros H. unfold effect, bind. now rewrite H. Qed.

Lemma effect_with_descriptor (d : PropertyDescriptor) (prev c : CheckedState)
    (input : HTMLInputElement) :
  getOwnPropertyDescriptor_checked window = Some d ->
  effect window prev c input
  = match negb (strict_eq prev c), set d with
    | true, Some setChecked =>
        {| completion := Return tt; node := synced setChecked c input;
           ops := syncOps setChecked c input |}
    | _, _ => {| completion := Return tt; node := input; ops := [] |}
    end.
Proof.
  intros H. unfold effect, bind. rewrite H. simpl.
  destruct (negb (strict_eq prev c)), (set d); reflexivity.
Qed.

Lemma mount_without_descriptor (c : CheckedState) (input : HTMLInputElement) :
  getOwnPropertyDescriptor_checked window = None ->
  BubbleInput window c unmounted input
  = {| completion := Throw TypeError; node := input; ops := [] |}.
Proof.
  intros H. unfold BubbleInput; simpl. unfold bind.
  now rewrite effect_without_descriptor.
Qed.

Lemma mount_with_descriptor (d : PropertyDescriptor) (c : CheckedState)
    (input : HTMLInputElement) :
  getOwnPropertyDescriptor_checked window = Some d ->
  BubbleInput window c unmounted input
  = {| completion := Return {| previous := Some c; effectDeps := Some (c, c) |};
       node := input; ops := [] |}.
Proof.
  intros H. unfold BubbleInput; simpl. unfold bind.
  rewrite (effect_with_descriptor d) by exact H.
  rewrite strict_eq_refl. reflexivity.
Qed.

(** A render after the mount: the effect synchronises the node exactly
    when the state changed and a setter was found. *)
Lemma rerender_with_descriptor (d : PropertyDescriptor) (hooks : Hooks)
    (p c : CheckedState) (input : HTMLInputElement) :
  getOwnPropertyDescriptor_checked window = Some d ->
  settled hooks p ->
  exists hooks',
    settled hooks' c
    /\ BubbleInput window c hooks input
       = match negb (strict_eq p c), set d with
         | true, Some setChecked =>
             {| completion := Return hooks'; node := synced setChecked c input;
                ops := syncOps setChecked c input |}
         | _, _ => {| completion := Return hooks'; node := input; ops := [] |}
         end.
Proof.
  intros Hd [Hp [x Hx]].
  exists {| previous := Some c; effectDeps := Some (p, c) |}.
  split; [split; [reflexivity | now exists p]|].
  unfold BubbleInput, usePrevious. rewrite Hp, Hx. simpl.
  destruct (strict_eq p c) eqn:Hpc; simpl.
  - apply strict_eq_true in Hpc. subst c.
    destruct (strict_eq x p); simpl; [reflexivity|].
    unfold bind. rewrite (effect_with_descriptor d) by exact Hd.
    rewrite strict_eq_refl. reflexivity.
  - rewrite andb_false_r. simpl. unfold bind.
    rewrite (effect_with_descriptor d) by exact Hd. rewrite Hpc. simpl.
    destruct (set d); reflexivity.
Qed.

End NativeBridge.

Section BridgeLife.

Import Js Dom Checkbox.

Lemma last_cons {A : Type} (l : list A) : forall a d, last (a :: l) d = last l a.
Proof.
  induction l as [|b l IH]; intros a d; [reflexivity|].
  change (last (a :: b :: l) d) with (last (b :: l) d).
  now rewrite (IH b d), (IH b a).
Qed.

Lemma transition_cons (a : CheckedState) (cs : list CheckedState) (c : CheckedState) :
  transition (a :: cs) c = negb (strict_eq (last cs a) c).
Proof. unfold transition. now rewrite last_cons. Qed.

Lemma transitions_snoc (cs : list CheckedState) (c : CheckedState) :
  transitions (cs ++ [c]) = transitions cs + (if transition cs c then 1 else 0).
Proof.
  induction cs as [|a cs IH]; [reflexivity|].
  destruct cs as [|b cs].
  - simpl. now destruct (strict_eq a c).
  - change (transitions ((a :: b :: cs) ++ [c]))
      with ((if strict_eq a b then 0 else 1) + transitions ((b :: cs) ++ [c])).
    change (transitions (a :: b :: cs))
      with ((if strict_eq a b then 0 else 1) + transitions (b :: cs)).
    rewrite IH, !transition_cons, Nat.add_assoc, (last_cons cs b a). reflexivity.
Qed.

Lemma dispatch_count_app (l l' : list Op) :
  dispatch_count (l ++ l') = dispatch_count l + dispatch_count l'.
Proof. unfold dispatch_count. now rewrite filter_app, length_app. Qed.

Variable window : Window.

Lemma renders_settled (d : PropertyDescriptor) :
  getOwnPropertyDescriptor_checked window = Some d ->
  forall cs hooks p input,
    settled hooks p ->
    exists hooks',
      completion (renders window cs hooks input) = Return hooks'
      /\ settled hooks' (last cs p).
Proof.
  intros Hd. induction cs as [|a cs IH]; intros hooks p input Hs.
  - exists hooks. now split.
  - destruct (rerender_with_descriptor window d hooks p a input Hd Hs)
      as [h [Hh Hr]].
    change (renders window (a :: cs) hooks input)
      with (bind (BubbleInput window a hooks) (fun h => renders window cs h) input).
    rewrite last_cons. unfold bind. rewrite Hr.
    destruct (negb (strict_eq p a)), (set d); simpl; eapply IH; exact Hh.
Qed.

Lemma life_settled (d : PropertyDescriptor) (a : CheckedState) (cs : list CheckedState) :
  getOwnPropertyDescriptor_checked window = Some d ->
  exists hooks,
    completion (life window (a :: cs)) = Return hooks /\ settled hooks (last cs a).
Proof.
  intros Hd. unfold life.
  change (renders window (a :: cs) unmounted freshInput)
    with (bind (BubbleInput window a unmounted) (fun h => renders window cs h) freshInput).
  unfold bind. rewrite (mount_with_descriptor window d) by exact Hd. simpl.
  eapply (renders_settled d Hd). split; [reflexivity | now exists a].
Qed.

Lemma life_without_descriptor (a : CheckedState) (cs : list CheckedState) :
  getOwnPropertyDescriptor_checked window = None ->
  life window (a :: cs) = {| completion := Throw TypeError; node := freshInput; ops := [] |}.
Proof.
  intros Hd. unfold life.
  change (renders window (a :: cs) unmounted freshInput)
    with (bind (BubbleInput window a unmounted) (fun h => renders window cs h) freshInput).
  unfold bind. now rewrite mount_without_descriptor.
Qed.

Lemma nextRender_without_descriptor (cs : list CheckedState) (c : CheckedState) :
  getOwnPropertyDescriptor_checked window = None ->
  nextRender window cs c
  = {| completion := Throw TypeError; node := freshInput; ops := [] |}.
Proof.
  intros Hd. unfold nextRender. destruct cs as [|a cs].
  - simpl. now apply mount_without_descriptor.
  - now rewrite life_without_descriptor.
Qed.

(** What the render after [cs] does on a host that has the descriptor. *)
Lemma nextRender_with_descriptor (d : PropertyDescriptor) (cs : list CheckedState)
    (c : CheckedState) :
  getOwnPropertyDescriptor_checked window = Some d ->
  exists hooks',
    settled hooks' c
    /\ nextRender window cs c
       = match transition cs c, set d with
         | true, Some setChecked =>
             {| completion := Return hooks';
                node := synced setChecked c (node (life window cs));
                ops := syncOps setChecked c (node (life window cs)) |}
         | _, _ =>
             {| completion := Return hooks'; node := node (life window cs); ops := [] |}
         end.
Proof.
  intros Hd. unfold nextRender. destruct cs as [|a cs].
  - exists {| previous := Some c; effectDeps := Some (c, c) |}.
    split; [split; [reflexivity | now exists c]|].
    unfold life. cbn [renders ret completion node].
    rewrite (mount_with_descriptor window d c _ Hd). reflexivity.
  - destruct (life_settled d a cs Hd) as [h [Hc Hs]]. rewrite Hc.
    rewrite transition_cons.
    exact (rerender_with_descriptor window d h (last cs a) c _ Hd Hs).
Qed.

(** The operations of the render after [cs], on any host. *)
Lemma nextRender_ops (cs : list CheckedState) (c : CheckedState) :
  ops (nextRender window cs c)
  = match transition cs c, located_setter window with
    | true, Some setChecked => syncOps setChecked c (node (life window cs))
    | _, _ => []
    end.
Proof.
  unfold located_setter.
  destruct (getOwnPropertyDescriptor_checked window) as [d|] eqn:Hd.
  - destruct (nextRender_with_descriptor d cs c Hd) as [h [_ Hr]]. rewrite Hr.
    destruct (transition cs c), (set d); reflexivity.
  - rewrite nextRender_without_descriptor by exact Hd.
    now destruct (transition cs c).
Qed.

Lemma nextRender_node (cs : list CheckedState) (c : CheckedState) :
  node (nextRender window cs c)
  = match transition cs c, located_setter window with
    | true, Some setChecked => synced setChecked c (node (life window cs))
    | _, _ => node (life window cs)
    end.
Proof.
  unfold located_setter.
  destruct (getOwnPropertyDescriptor_checked window) as [d|] eqn:Hd.
  - destruct (nextRender_with_descriptor d cs c Hd) as [h [_ Hr]]. rewrite Hr.
    destruct (transition cs c), (set d); reflexivity.
  - rewrite nextRender_without_descriptor by exact Hd.
    destruct cs as [|a cs]; [|rewrite life_without_descriptor by exact Hd];
      now destruct (transition _ c).
Qed.

Lemma nextRender_dispatch_count (cs : list CheckedState) (c : CheckedState) :
  dispatch_count (ops (nextRender window cs c))
  = if transition cs c && setter_located window then 1 else 0.
Proof.
  rewrite nextRender_ops. unfold setter_located.
  destruct (transition cs c), (located_setter window); reflexivity.
Qed.

Lemma life_dispatch_count (cs : list CheckedState) :
  dispatch_count (ops (life window cs))
  = if setter_located window then transitions cs else 0.
Proof.
  induction cs as [|c cs IH] using rev_ind.
  - now destruct (setter_located window).
  - destruct (life_snoc window cs c) as [Hops _].
    rewrite Hops, dispatch_count_app, IH, nextRender_dispatch_count, transitions_snoc.
    destruct (setter_located window), (transition cs c); simpl; lia.
Qed.

End BridgeLife.

Section BridgeWithoutSetter.

Import Js Dom Checkbox.

Variable window : Window.
Variable d : PropertyDescriptor.
Hypothesis has_descriptor : getOwnPropertyDescriptor_checked window = Some d.

Lemma life_returns (cs : list CheckedState) :
  throws (completion (life window cs)) = false.
Proof.
  destruct cs as [|a cs]; [reflexivity|].
  destruct (life_settled window d a cs has_descriptor) as [h [Hc _]].
  now rewrite Hc.
Qed.

Hypothesis no_setter : set d = None.

Lemma life_without_setter (cs : list CheckedState) :
  ops (life window cs) = [] /\ node (life window cs) = freshInput.
Proof.
  induction cs as [|c cs [IHops IHnode]] using rev_ind; [now split|].
  destruct (life_snoc window cs c) as [Hops Hrest].
  destruct (Hrest (life_returns cs)) as [Hnode _].
  rewrite Hops, Hnode, IHops, nextRender_ops, nextRender_node, IHnode.
  unfold located_setter. rewrite has_descriptor, no_setter.
  now destruct (transition cs c).
Qed.

End BridgeWithoutSetter.

(** C1, as the code has it.  A render of the bridge dispatches one event
    when its CheckedState differs from the previous render's and the
    platform setter of [checked] was located, and none otherwise; in the
    first case its operations are the two writes and the dispatch, in the
    second it does nothing to the node, a render with an unchanged
    CheckedState in particular.  The operations of a life are those of its
    renders in turn, so a life dispatches as many events as it has
    transitions, however many renders repeat a state in between, provided
    the setter was located. *)
Theorem bridge_dispatches_once_per_transition :
  forall (window : Dom.Window) (cs : list Checkbox.CheckedState) (c : Checkbox.CheckedState),
    Dom.dispatch_count (Dom.ops (Checkbox.nextRender window cs c))
    = (if Checkbox.transition cs c && Dom.setter_located window then 1 else 0)
    /\ Dom.ops (Checkbox.nextRender window cs c)
       = match Checkbox.transition cs c, Dom.located_setter window with
         | true, Some setChecked =>
             Checkbox.syncOps setChecked c (Dom.node (Checkbox.life window cs))
         | _, _ => []
         end
    /\ Dom.node (Checkbox.nextRender window cs c)
       = match Checkbox.transition cs c, Dom.located_setter window with
         | true, Some setChecked =>
             Checkbox.synced setChecked c (Dom.node (Checkbox.life window cs))
         | _, _ => Dom.node (Checkbox.life window cs)
         end
    /\ Dom.ops (Checkbox.life window (cs ++ [c]))
       = (Dom.ops (Checkbox.life window cs) ++ Dom.ops (Checkbox.nextRender window cs c))%list
    /\ Dom.dispatch_count (Dom.ops (Checkbox.life window cs))
       = (if Dom.setter_located window then Checkbox.transitions cs else 0).
Proof.
  intros window cs c. split; [apply nextRender_dispatch_count|].
  split; [apply nextRender_ops|]. split; [apply nextRender_node|]. split.
  - apply life_snoc.
  - apply life_dispatch_count.
Qed.

(** C1 as stated fails: on a host whose [checked] descriptor has no
    setter, the render from Unchecked to Checked is a transition and
    dispatches nothing. *)
Lemma transition_without_setter_dispatches_nothing :
  Checkbox.transition [Checkbox.Unchecked] Checkbox.Checked = true
  /\ Dom.dispatch_count
       (Dom.ops (Checkbox.nextRender Dom.host_without_setter
                   [Checkbox.Unchecked] Checkbox.Checked)) = 0
  /\ ~ (forall window cs c,
           Dom.dispatch_count (Dom.ops (Checkbox.nextRender window cs c))
           = if Checkbox.transition cs c then 1 else 0).
Proof.
  split; [reflexivity|]. split; [reflexivity|].
  intros H.
  specialize (H Dom.host_without_setter [Checkbox.Unchecked] Checkbox.Checked).
  discriminate H.
Qed.

(** C3, as the code has it.  On a transition, when the setter located is
    the platform's, the bridge leaves the node's indeterminate flag true
    exactly when the new state is Indeterminate, and its checked boolean
    false for Indeterminate and the boolean of the new state otherwise;
    it does so by one write of each, before the dispatch. *)
Theorem bridge_mirrors_transition :
  forall (window : Dom.Window) (cs : list Checkbox.CheckedState) (c : Checkbox.CheckedState),
    Dom.located_setter window = Some Dom.checked_setter ->
    Checkbox.transition cs c = true ->
    let input := Dom.node (Checkbox.nextRender window cs c) in
    let value := match c with
                 | Checkbox.Indeterminate => false
                 | Checkbox.Boolean b => b
                 end in
    (Dom.indeterminate input = true <-> c = Checkbox.Indeterminate)
    /\ Dom.checked input = value
    /\ Dom.ops (Checkbox.nextRender window cs c)
       = [ Dom.SetIndeterminate (Checkbox.strict_eq c Checkbox.Indeterminate);
           Dom.SetChecked value;
           Dom.DispatchEvent Checkbox.clickEvent input ].
Proof.
  intros window cs c Hset Htr input value. subst input value.
  rewrite nextRender_ops, nextRender_node, Hset, Htr.
  unfold Checkbox.syncOps, Checkbox.synced, Dom.checked_setter; simpl.
  split; [apply strict_eq_true|]. split; now destruct c.
Qed.

Lemma bridge_mirrors_transition_witness :
  (Dom.indeterminate
     (Dom.node (Checkbox.nextRender Dom.browser [Checkbox.Unchecked] Checkbox.Indeterminate))
   = true <-> Checkbox.Indeterminate = Checkbox.Indeterminate)
  /\ Dom.checked
       (Dom.node (Checkbox.nextRender Dom.browser [Checkbox.Unchecked] Checkbox.Indeterminate))
     = false
  /\ Dom.ops (Checkbox.nextRender Dom.browser [Checkbox.Unchecked] Checkbox.Indeterminate)
     = [ Dom.SetIndeterminate true; Dom.SetChecked false;
         Dom.DispatchEvent Checkbox.clickEvent
           {| Dom.indeterminate := true; Dom.checked := false |} ].
Proof.
  exact (bridge_mirrors_transition Dom.browser [Checkbox.Unchecked] Checkbox.Indeterminate
           eq_refl eq_refl).
Defined.

(** C3 as stated fails: on a host whose [checked] descriptor has no
    setter, the transition from Unchecked to Indeterminate leaves the
    node's indeterminate flag false. *)
Lemma transition_without_setter_leaves_mirror :
  Checkbox.transition [Checkbox.Unchecked] Checkbox.Indeterminate = true
  /\ Dom.indeterminate
       (Dom.node (Checkbox.nextRender Dom.host_without_setter
                    [Checkbox.Unchecked] Checkbox.Indeterminate)) = false
  /\ ~ (forall window cs c,
           Checkbox.transition cs c = true ->
           (Dom.indeterminate (Dom.node (Checkbox.nextRender window cs c)) = true
            <-> c = Checkbox.Indeterminate)).
Proof.
  split; [reflexivity|]. split; [reflexivity|].
  intros H.
  destruct (H Dom.host_without_setter [Checkbox.Unchecked] Checkbox.Indeterminate eq_refl)
    as [_ H'].
  discriminate (H' eq_refl).
Qed.

(** C4.  Whenever a render of the bridge dispatches an event, the two
    writes to the node, first the indeterminate flag and then the checked
    boolean, are what the render did before the dispatch, and nothing
    follows it; the node a listener finds is the node as both writes left
    it, which is also the node at the end of the render.  With the
    platform's setter that is the node whose two properties mirror the new
    state. *)
Theorem dispatch_follows_both_mutations :
  forall (window : Dom.Window) (cs : list Checkbox.CheckedState) (c : Checkbox.CheckedState)
         (before after : list Dom.Op) (event : Dom.Event) (seen : Dom.HTMLInputElement),
    Dom.ops (Checkbox.nextRender window cs c) = (before ++ Dom.DispatchEvent event seen :: after)%list ->
    let isIndeterminate := Checkbox.strict_eq c Checkbox.Indeterminate in
    let value := if isIndeterminate then false else Checkbox.ToBoolean c in
    before = [Dom.SetIndeterminate isIndeterminate; Dom.SetChecked value]
    /\ after = []
    /\ seen = Dom.node (Checkbox.nextRender window cs c)
    /\ (exists setChecked,
           Dom.located_setter window = Some setChecked
           /\ seen = setChecked
                       {| Dom.indeterminate := isIndeterminate;
                          Dom.checked := Dom.checked (Dom.node (Checkbox.life window cs)) |}
                       value)
    /\ (Dom.located_setter window = Some Dom.checked_setter ->
        seen = {| Dom.indeterminate := isIndeterminate; Dom.checked := value |}).
Proof.
  intros window cs c before after event seen H isInd value.
  rewrite nextRender_ops in H. rewrite nextRender_node.
  destruct (Checkbox.transition cs c);
    [|now destruct before].
  destruct (Dom.located_setter window) as [f|]; [|now destruct before].
  unfold Checkbox.syncOps in H. fold isInd in H. fold value in H.
  destruct before as [|x [|y [|z before]]]; try discriminate H.
  - injection H as Hx Hy He Hs Ha. subst x y seen after.
    split; [reflexivity|]. split; [reflexivity|]. split; [reflexivity|].
    split; [exists f; now split|].
    intros Hf. injection Hf as ->. reflexivity.
  - injection H as _ _ _ H. now destruct before.
Qed.

Lemma dispatch_follows_both_mutations_witness :
  Dom.ops (Checkbox.nextRender Dom.browser [Checkbox.Unchecked] Checkbox.Checked)
  = ([Dom.SetIndeterminate false; Dom.SetChecked true]
       ++ Dom.DispatchEvent Checkbox.clickEvent
            {| Dom.indeterminate := false; Dom.checked := true |} :: [])%list
  /\ {| Dom.indeterminate := false; Dom.checked := true |}
     = Dom.node (Checkbox.nextRender Dom.browser [Checkbox.Unchecked] Checkbox.Checked).
Proof.
  split; [reflexivity|].
  exact (proj1 (proj2 (proj2
           (dispatch_follows_both_mutations Dom.browser [Checkbox.Unchecked] Checkbox.Checked
              [Dom.SetIndeterminate false; Dom.SetChecked true] []
              Checkbox.clickEvent {| Dom.indeterminate := false; Dom.checked := true |}
              eq_refl)))).
Defined.

(** C9, evaluated on the code.  On a host where [checked] is not an own
    property of [HTMLInputElement.prototype], the effect of the bridge
    reads [set] of [undefined]: every life throws a [TypeError], at the
    mount render already.  On a host that has the descriptor but no setter
    in it, no life throws, writes to the node or dispatches. *)
Theorem bridge_without_descriptor_throws :
  forall (c : Checkbox.CheckedState) (cs : list Checkbox.CheckedState),
    Dom.located_setter Dom.host_without_descriptor = None
    /\ Checkbox.life Dom.host_without_descriptor (c :: cs)
       = {| Dom.completion := Js.Throw Js.TypeError;
            Dom.node := Checkbox.freshInput; Dom.ops := [] |}
    /\ Dom.located_setter Dom.host_without_setter = None
    /\ Js.throws (Dom.completion (Checkbox.life Dom.host_without_setter (c :: cs))) = false
    /\ Dom.ops (Checkbox.life Dom.host_without_setter (c :: cs)) = []
    /\ Dom.node (Checkbox.life Dom.host_without_setter (c :: cs)) = Checkbox.freshInput.
Proof.
  intros c cs. split; [reflexivity|]. split.
  - now apply life_without_descriptor.
  - split; [reflexivity|]. split.
    + now apply (life_returns Dom.host_without_setter {| Dom.set := None |}).
    + now apply (life_without_setter Dom.host_without_setter {| Dom.set := None |}).
Qed.

(* ================================================================== *)
(** * Further properties of the code *)

(** ** The rendered attributes *)

(** X1.  [getState] tells the three states apart: two states have the
    same [data-state] label only if they are the same state. *)
Theorem getState_injective :
  forall a b : Checkbox.CheckedState,
    Checkbox.getState a = Checkbox.getState b <-> a = b.
Proof.
  intros a b. split; [|intros ->; reflexivity].
  destruct a as [[]|], b as [[]|]; intros H; try reflexivity; vm_compute in H; discriminate H.
Qed.

(** X2.  The values [Checkbox] computes for the button's [aria-checked]
    and [data-state] never disagree: ['mixed'] goes with ["indeterminate"],
    [true] with ["checked"] and [false] with ["unchecked"], and
    [aria-checked] is the boolean of the state whenever the state is one.
    (A consumer's own prop of either name, spread after them at line 82,
    replaces the computed one.) *)
Theorem ariaChecked_agrees_with_getState :
  forall c : Checkbox.CheckedState,
    (Checkbox.ariaChecked c = Checkbox.Mixed
     <-> Checkbox.getState c = "indeterminate"%string)
    /\ (Checkbox.ariaChecked c = Checkbox.AriaBoolean true
        <-> Checkbox.getState c = "checked"%string)
    /\ (Checkbox.ariaChecked c = Checkbox.AriaBoolean false
        <-> Checkbox.getState c = "unchecked"%string)
    /\ (forall b, Checkbox.ariaChecked (Checkbox.Boolean b) = Checkbox.AriaBoolean b).
Proof.
  intros c. split; [|split; [|split]].
  1-3: destruct c as [[]|]; vm_compute; split; intros H; reflexivity || discriminate H.
  intros b. now destruct b.
Qed.

(** X3.  An indicator rendered among the children of a [Checkbox] never
    throws; it carries the [data-state] and [data-disabled] the button of
    that checkbox computes, and it is present exactly when [forceMount]
    is set or the checkbox does not show Unchecked. *)
Theorem indicator_inside_checkbox :
  forall (props : Checkbox.Props) (disabled : option bool) (inst : Checkbox.Instance)
         (tree : Context.Enclosing Checkbox.CheckboxContextValue) (forceMount : bool),
    Checkbox.CheckboxIndicatorAttributes forceMount (Checkbox.children props disabled inst tree)
    = Js.Return
        {| Checkbox.indicatorPresent :=
             forceMount
             || negb (Checkbox.strict_eq (Checkbox.checked props inst) Checkbox.Unchecked);
           Checkbox.indicatorState := Checkbox.getState (Checkbox.checked props inst);
           Checkbox.indicatorDisabled := Checkbox.dataDisabled disabled |}.
Proof.
  intros props disabled inst tree forceMount.
  unfold Checkbox.children, Checkbox.CheckboxIndicatorAttributes. simpl.
  unfold Checkbox.present; simpl.
  now destruct forceMount, (Checkbox.checked props inst) as [[]|].
Qed.

(** X4.  An indicator rendered outside every [Checkbox] throws the error
    of the required context, whose message is
    [`CheckboxIndicator` must be used within `Checkbox`], whether or not
    [forceMount] is set. *)
Theorem indicator_outside_checkbox :
  forall forceMount : bool,
    Checkbox.CheckboxIndicator forceMount []
    = Js.Throw (Js.Error "`CheckboxIndicator` must be used within `Checkbox`")
    /\ Checkbox.CheckboxIndicatorAttributes forceMount []
       = Js.Throw (Js.Error "`CheckboxIndicator` must be used within `Checkbox`").
Proof. intros forceMount. split; reflexivity. Qed.

(** ** Clicks *)

Section Clicks.

Import Checkbox.

Variable onCheckedChange : bool.
Variable onClick : option (SyntheticEvent.t -> SyntheticEvent.t).

Local Abbreviation uncontrolled := (uncontrolledProps onCheckedChange onClick).

Lemma clicks_snoc (props : Props) (events : list SyntheticEvent.t) (e : SyntheticEvent.t) :
  forall inst,
    clicks props (events ++ [e]) inst = instance (click props (clicks props events inst) e).
Proof.
  induction events as [|e' events IH]; intros inst; [reflexivity|].
  change (clicks props ((e' :: events) ++ [e]) inst)
    with (clicks props (events ++ [e]) (instance (click props inst e'))).
  now rewrite IH.
Qed.

Lemma nextChecked_moves (c : CheckedState) : nextChecked (Some c) <> c.
Proof. destruct c as [[]|]; discriminate. Qed.

Lemma click_uncontrolled_moves (d : option CheckedState) (inst : Instance)
    (e : SyntheticEvent.t) :
  checked (uncontrolled d) (instance (click (uncontrolled d) inst e))
  <> checked (uncontrolled d) inst.
Proof.
  unfold checked. rewrite click_uncontrolled. simpl.
  destruct (uncontrolledProp inst) as [[[]|]|]; discriminate.
Qed.

Lemma click_uncontrolled_boolean (d : option CheckedState) (inst : Instance)
    (e : SyntheticEvent.t) :
  strict_eq (checked (uncontrolled d) (instance (click (uncontrolled d) inst e)))
    Indeterminate = false.
Proof.
  unfold checked. rewrite click_uncontrolled. simpl.
  now destruct (uncontrolledProp inst) as [[[]|]|].
Qed.

Lemma click_ref (props : Props) (inst : Instance) (e : SyntheticEvent.t) :
  hasConsumerStoppedPropagationRef (instance (click props inst e))
  = SyntheticEvent.isPropagationStopped
      (match Checkbox.onClick props with Some handler => handler e | None => e end).
Proof.
  unfold click, handleClick, composeEventHandlers, ourClickHandler.
  destruct (Checkbox.onClick props); simpl;
    destruct (ControllableState.setValue _ _ _ _); reflexivity.
Qed.

End Clicks.

(** X5.  A click always changes what an uncontrolled checkbox shows: the
    toggle has no fixed point, neither on a state nor on the [undefined]
    that is shown as Unchecked. *)
Theorem click_always_changes_uncontrolled :
  forall onCheckedChange onClick defaultChecked inst e,
    let props := Checkbox.uncontrolledProps onCheckedChange onClick defaultChecked in
    (forall c, Checkbox.nextChecked (Some c) <> c)
    /\ Checkbox.nextChecked None <> Checkbox.Unchecked
    /\ Checkbox.checked props (Checkbox.instance (Checkbox.click props inst e))
       <> Checkbox.checked props inst.
Proof.
  intros oc ok d inst e props. split; [apply nextChecked_moves|].
  split; [discriminate|]. apply click_uncontrolled_moves.
Qed.

(** X6.  The flag the hidden input's listener reads is that of the latest
    click alone: after any clicks it says whether the consumer's handler
    left the last event with its propagation stopped, whatever happened
    on earlier clicks; and before any click the listener leaves every
    event as it is. *)
Theorem propagation_flag_is_of_the_latest_click :
  forall (props : Checkbox.Props) (inst : Checkbox.Instance)
         (events : list SyntheticEvent.t) (e e' : SyntheticEvent.t),
    Checkbox.hasConsumerStoppedPropagationRef (Checkbox.clicks props (events ++ [e]) inst)
    = SyntheticEvent.isPropagationStopped
        (match Checkbox.onClick props with Some handler => handler e | None => e end)
    /\ Checkbox.onClickCapture (Checkbox.mount props) e' = e'.
Proof.
  intros props inst events e e'. split; [|reflexivity].
  rewrite clicks_snoc. apply click_ref.
Qed.

(** ** The bridge as a fold over the node *)

Section BridgeFold.

Import Js Dom Checkbox.

Local Abbreviation Setter := (HTMLInputElement -> bool -> HTMLInputElement).

Lemma synced_checked_setter (c : CheckedState) (input : HTMLInputElement) :
  synced checked_setter c input = mirror c.
Proof. reflexivity. Qed.

Lemma mirrorRun_dropRepeats (setChecked : option Setter) (cs : list CheckedState) :
  forall p input,
    mirrorRun setChecked p (dropRepeats p cs) input = mirrorRun setChecked p cs input.
Proof.
  induction cs as [|c cs IH]; intros p input; [reflexivity|].
  simpl. destruct (strict_eq p c) eqn:Hpc; simpl.
  - apply strict_eq_true in Hpc. subst c. apply IH.
  - rewrite Hpc. simpl. destruct setChecked as [f|]; [|apply IH].
    now rewrite IH.
Qed.

Lemma transitions_none_last (cs : list CheckedState) :
  forall c, transitions (c :: cs) = 0 -> last cs c = c.
Proof.
  induction cs as [|b cs IH]; intros c H; [reflexivity|].
  change (transitions (c :: b :: cs))
    with ((if strict_eq c b then 0 else 1) + transitions (b :: cs)) in H.
  destruct (strict_eq c b) eqn:Hcb; [|discriminate H].
  apply strict_eq_true in Hcb. subst b.
  rewrite last_cons. now apply IH.
Qed.

Lemma mirrorRun_node (cs : list CheckedState) :
  forall p input,
    fst (mirrorRun (Some checked_setter) p cs input)
    = match transitions (p :: cs) with
      | 0 => input
      | S _ => mirror (last cs p)
      end.
Proof.
  induction cs as [|c cs IH]; intros p input; [reflexivity|].
  change (transitions (p :: c :: cs))
    with ((if strict_eq p c then 0 else 1) + transitions (c :: cs)).
  rewrite last_cons. cbn [mirrorRun].
  destruct (strict_eq p c) eqn:Hpc; cbn [negb Nat.add].
  - apply IH.
  - specialize (IH c (synced checked_setter c input)).
    destruct (mirrorRun (Some checked_setter) c cs (synced checked_setter c input))
      as [input' l]. cbn [fst] in IH |- *. rewrite IH.
    destruct (transitions (c :: cs)) eqn:Ht; [|reflexivity].
    now rewrite (transitions_none_last cs c Ht).
Qed.

Lemma mirrorRun_shape (setChecked : option Setter) (cs : list CheckedState) :
  forall p input,
    let l := snd (mirrorRun setChecked p cs input) in
    List.length (filter is_set_indeterminate l) = dispatch_count l
    /\ List.length (filter is_set_checked l) = dispatch_count l
    /\ forallb dispatches_click l = true.
Proof.
  induction cs as [|c cs IH]; intros p input; [now split|].
  simpl. destruct (negb (strict_eq p c)); [|apply IH].
  destruct setChecked as [f|]; [|apply IH].
  specialize (IH c (synced f c input)).
  destruct (mirrorRun (Some f) c cs (synced f c input)) as [input' l].
  simpl in *. unfold dispatch_count in *. simpl.
  destruct IH as [H1 [H2 H3]]. now rewrite H1, H2, H3.
Qed.

Variable window : Window.
Variable d : PropertyDescriptor.
Hypothesis has_descriptor : getOwnPropertyDescriptor_checked window = Some d.

(** On a host that has the descriptor, the renders after a render with
    state [p] do to the node what the fold does. *)
Lemma renders_run (cs : list CheckedState) :
  forall hooks p input,
    settled hooks p ->
    node (renders window cs hooks input) = fst (mirrorRun (set d) p cs input)
    /\ ops (renders window cs hooks input) = snd (mirrorRun (set d) p cs input).
Proof.
  induction cs as [|c cs IH]; intros hooks p input Hs; [now split|].
  destruct (rerender_with_descriptor window d hooks p c input has_descriptor Hs)
    as [h [Hh Hr]].
  change (renders window (c :: cs) hooks input)
    with (bind (BubbleInput window c hooks) (fun h => renders window cs h) input).
  unfold bind. rewrite Hr. simpl mirrorRun.
  destruct (negb (strict_eq p c)); [destruct (set d) as [f|]|]; simpl.
  - destruct (IH h c (synced f c input) Hh) as [Hn Ho]. rewrite Hn, Ho.
    now destruct (mirrorRun (Some f) c cs (synced f c input)).
  - apply (IH h c input Hh).
  - apply (IH h c input Hh).
Qed.

Lemma life_run (a : CheckedState) (cs : list CheckedState) :
  node (life window (a :: cs)) = fst (mirrorRun (set d) a cs freshInput)
  /\ ops (life window (a :: cs)) = snd (mirrorRun (set d) a cs freshInput).
Proof.
  unfold life.
  change (renders window (a :: cs) unmounted freshInput)
    with (bind (BubbleInput window a unmounted) (fun h => renders window cs h) freshInput).
  unfold bind. rewrite (mount_with_descriptor window d) by exact has_descriptor. simpl.
  assert (Hs : settled {| previous := Some a; effectDeps := Some (a, a) |} a)
    by (split; [reflexivity | now exists a]).
  exact (renders_run cs _ a freshInput Hs).
Qed.

End BridgeFold.

Lemma located_setter_descriptor (window : Dom.Window)
    (f : Dom.HTMLInputElement -> bool -> Dom.HTMLInputElement) :
  Dom.located_setter window = Some f ->
  exists d, Dom.getOwnPropertyDescriptor_checked window = Some d /\ Dom.set d = Some f.
Proof.
  unfold Dom.located_setter.
  destruct (Dom.getOwnPropertyDescriptor_checked window) as [d|]; [|discriminate].
  intros H. now exists d.
Qed.

(** X8.  With the platform's setter, the hidden input mirrors the state of
    the last render as soon as the state has changed once; until then it
    is as it was created, unchecked and determinate, also when the bridge
    was mounted with Checked or Indeterminate. *)
Theorem bridge_mirrors_after_first_transition :
  forall (window : Dom.Window) (a : Checkbox.CheckedState) (cs : list Checkbox.CheckedState),
    Dom.located_setter window = Some Dom.checked_setter ->
    Dom.node (Checkbox.life window (a :: cs))
    = match Checkbox.transitions (a :: cs) with
      | 0 => Checkbox.freshInput
      | S _ => Checkbox.mirror (last cs a)
      end.
Proof.
  intros window a cs H.
  destruct (located_setter_descriptor window _ H) as [d [Hd Hset]].
  destruct (life_run window d Hd a cs) as [Hn _].
  rewrite Hn, Hset. apply mirrorRun_node.
Qed.

Lemma bridge_mirrors_after_first_transition_witness :
  Dom.node (Checkbox.life Dom.browser [Checkbox.Checked; Checkbox.Checked])
  = Checkbox.freshInput
  /\ Dom.node (Checkbox.life Dom.browser
                 [Checkbox.Checked; Checkbox.Indeterminate; Checkbox.Unchecked])
     = Checkbox.mirror Checkbox.Unchecked.
Proof.
  split.
  - exact (bridge_mirrors_after_first_transition Dom.browser Checkbox.Checked
             [Checkbox.Checked] eq_refl).
  - exact (bridge_mirrors_after_first_transition Dom.browser Checkbox.Checked
             [Checkbox.Indeterminate; Checkbox.Unchecked] eq_refl).
Defined.

(** X9.  On every host and in every life, the bridge writes the
    indeterminate flag and calls the setter once for each event it
    dispatches, and every event it dispatches is a [click] that bubbles. *)
Theorem bridge_operations_come_in_threes :
  forall (window : Dom.Window) (cs : list Checkbox.CheckedState),
    let l := Dom.ops (Checkbox.life window cs) in
    List.length (filter Checkbox.is_set_indeterminate l) = Dom.dispatch_count l
    /\ List.length (filter Checkbox.is_set_checked l) = Dom.dispatch_count l
    /\ forallb Checkbox.dispatches_click l = true.
Proof.
  intros window cs l. subst l.
  destruct cs as [|a cs]; [now split|].
  destruct (Dom.getOwnPropertyDescriptor_checked window) as [d|] eqn:Hd.
  - destruct (life_run window d Hd a cs) as [_ Ho]. rewrite Ho.
    apply mirrorRun_shape.
  - rewrite life_without_descriptor by exact Hd. now split.
Qed.

Lemma dropRepeats_transitions (cs : list Checkbox.CheckedState) :
  forall p,
    Checkbox.transitions (p :: Checkbox.dropRepeats p cs)
    = List.length (Checkbox.dropRepeats p cs).
Proof.
  induction cs as [|c cs IH]; intros p; [reflexivity|].
  cbn [Checkbox.dropRepeats]. destruct (Checkbox.strict_eq p c) eqn:Hpc.
  - apply strict_eq_true in Hpc. subst c. apply IH.
  - change (Checkbox.transitions (p :: c :: Checkbox.dropRepeats c cs))
      with ((if Checkbox.strict_eq p c then 0 else 1)
            + Checkbox.transitions (c :: Checkbox.dropRepeats c cs)).
    rewrite Hpc, IH. reflexivity.
Qed.

(** X10.  Renders that repeat the state of the render before them can be
    left out of a life without changing anything the bridge does: the
    operations, the node and whether it throws are those of the renders
    that remain, of which every one after the first is a transition. *)
Theorem bridge_ignores_repeated_renders :
  forall (window : Dom.Window) (cs : list Checkbox.CheckedState),
    Checkbox.transitions (Checkbox.distinctRenders cs)
    = List.length (Checkbox.distinctRenders cs) - 1
    /\ Dom.ops (Checkbox.life window (Checkbox.distinctRenders cs))
       = Dom.ops (Checkbox.life window cs)
    /\ Dom.node (Checkbox.life window (Checkbox.distinctRenders cs))
       = Dom.node (Checkbox.life window cs)
    /\ Js.throws (Dom.completion (Checkbox.life window (Checkbox.distinctRenders cs)))
       = Js.throws (Dom.completion (Checkbox.life window cs)).
Proof.
  intros window cs. destruct cs as [|a cs]; [now split|].
  change (Checkbox.distinctRenders (a :: cs)) with (a :: Checkbox.dropRepeats a cs).
  split.
  { rewrite dropRepeats_transitions. simpl. now rewrite Nat.sub_0_r. }
  destruct (Dom.getOwnPropertyDescriptor_checked window) as [d|] eqn:Hd.
  - destruct (life_run window d Hd a cs) as [Hn Ho].
    destruct (life_run window d Hd a (Checkbox.dropRepeats a cs)) as [Hn' Ho'].
    rewrite Hn, Ho, Hn', Ho', mirrorRun_dropRepeats, !(life_returns window d Hd).
    now split.
  - rewrite !life_without_descriptor by exact Hd. now split.
Qed.

(** ** A checkbox and its hidden input through a session of clicks *)

Section Session.

Import Js Dom Checkbox.
Local Open Scope dom_scope.

Variable window : Window.
Variable props : Props.

Lemma activations_snoc (events : list SyntheticEvent.t) (e : SyntheticEvent.t) :
  forall m input,
    activations window props (events ++ [e]) m input
    = bind (activations window props events m) (activate window props e) input.
Proof.
  induction events as [|e' events IH]; intros m input.
  - change (activations window props ([] ++ [e]) m)
      with (bind (activate window props e m) (fun m' => ret m')).
    change (activations window props [] m) with (@ret Mounted m).
    now rewrite bind_ret_l, bind_ret_r.
  - change (activations window props ((e' :: events) ++ [e]) m)
      with (bind (activate window props e' m)
              (fun m' => activations window props (events ++ [e]) m')).
    change (activations window props (e' :: events) m)
      with (bind (activate window props e' m) (fun m' => activations window props events m')).
    rewrite bind_assoc. apply bind_ext. intros m' n. apply IH.
Qed.

(** The last click of a session is [nextActivation]. *)
Lemma session_snoc (events : list SyntheticEvent.t) (e : SyntheticEvent.t) :
  ops (session window props (events ++ [e]))
  = (ops (session window props events) ++ ops (nextActivation window props events e))%list.
Proof.
  unfold nextActivation, session.
  rewrite (bind_ext _ _ (fun m => bind (activations window props events m)
                                   (activate window props e)))
    by (intros; apply activations_snoc).
  rewrite <- bind_assoc. unfold bind at 1.
  destruct (bind (mountCheckbox window props)
              (fun m => activations window props events m) freshInput)
    as [[m|err] n l]; simpl; [reflexivity | now rewrite app_nil_r].
Qed.

Lemma session_without_descriptor (events : list SyntheticEvent.t) :
  getOwnPropertyDescriptor_checked window = None ->
  session window props events
  = {| completion := Throw TypeError; node := freshInput; ops := [] |}.
Proof.
  intros Hd. unfold session, mountCheckbox, render, bind.
  now rewrite mount_without_descriptor.
Qed.

Variable d : PropertyDescriptor.
Hypothesis has_descriptor : getOwnPropertyDescriptor_checked window = Some d.

Lemma render_settled (m : Mounted) (p : CheckedState) (input : HTMLInputElement) :
  settled (bubble m) p ->
  exists hooks',
    settled hooks' (checked props (checkbox m))
    /\ render window props m input
       = match negb (strict_eq p (checked props (checkbox m))), set d with
         | true, Some setChecked =>
             {| completion := Return {| checkbox := checkbox m; bubble := hooks' |};
                node := synced setChecked (checked props (checkbox m)) input;
                ops := syncOps setChecked (checked props (checkbox m)) input |}
         | _, _ =>
             {| completion := Return {| checkbox := checkbox m; bubble := hooks' |};
                node := input; ops := [] |}
         end.
Proof.
  intros Hs.
  destruct (rerender_with_descriptor window d (bubble m) p (checked props (checkbox m))
              input has_descriptor Hs) as [h [Hh Hr]].
  exists h. split; [exact Hh|].
  unfold render, bind. rewrite Hr.
  destruct (negb (strict_eq p (checked props (checkbox m)))), (set d); reflexivity.
Qed.

Lemma activations_settled (events : list SyntheticEvent.t) :
  forall m input,
    settled (bubble m) (checked props (checkbox m)) ->
    exists m',
      completion (activations window props events m input) = Return m'
      /\ checkbox m' = clicks props events (checkbox m)
      /\ settled (bubble m') (checked props (checkbox m')).
Proof.
  induction events as [|e events IH]; intros m input Hs.
  - exists m. now split.
  - change (activations window props (e :: events) m input)
      with (bind (activate window props e m)
              (fun m' => activations window props events m') input).
    unfold bind, activate.
    destruct (render_settled
                {| checkbox := instance (click props (checkbox m) e); bubble := bubble m |}
                (checked props (checkbox m)) input Hs) as [h [Hh Hr]].
    rewrite Hr. cbn [checkbox bubble].
    set (m1 := {| checkbox := instance (click props (checkbox m) e); bubble := h |}).
    assert (Hs1 : settled (bubble m1) (checked props (checkbox m1))) by exact Hh.
    destruct (negb (strict_eq _ _)); [destruct (set d) as [f|]|]; cbn [completion node];
      match goal with
      | |- context [activations window props events m1 ?n] =>
          destruct (IH m1 n Hs1) as [m' [Hc [Hk Hs']]]
      end;
      exists m'; rewrite Hc; (split; [reflexivity | split; [exact Hk | exact Hs']]).
Qed.

Lemma mountCheckbox_with_descriptor (input : HTMLInputElement) :
  mountCheckbox window props input
  = {| completion :=
         Return {| checkbox := mount props;
                   bubble := {| previous := Some (checked props (mount props));
                                effectDeps := Some (checked props (mount props),
                                                    checked props (mount props)) |} |};
       node := input; ops := [] |}.
Proof.
  unfold mountCheckbox, render, bind. cbn [checkbox bubble].
  rewrite (mount_with_descriptor window d) by exact has_descriptor. reflexivity.
Qed.

Lemma session_settled (events : list SyntheticEvent.t) :
  exists m,
    completion (session window props events) = Return m
    /\ checkbox m = clicks props events (mount props)
    /\ settled (bubble m) (checked props (checkbox m)).
Proof.
  unfold session, bind. rewrite mountCheckbox_with_descriptor.
  cbn [completion node ops].
  set (m0 := {| checkbox := mount props; bubble := _ |}).
  assert (Hs : settled (bubble m0) (checked props (checkbox m0)))
    by (split; [reflexivity | now eexists]).
  destruct (activations_settled events m0 freshInput Hs) as [m [Hc [Hk Hs']]].
  exists m. rewrite Hc. now split.
Qed.

(** What the click after a session does to the node. *)
Lemma nextActivation_settled (events : list SyntheticEvent.t) (e : SyntheticEvent.t) :
  let p := checked props (clicks props events (mount props)) in
  let c := checked props (clicks props (events ++ [e]) (mount props)) in
  let input := node (session window props events) in
  node (nextActivation window props events e)
  = match negb (strict_eq p c), set d with
    | true, Some setChecked => synced setChecked c input
    | _, _ => input
    end
  /\ ops (nextActivation window props events e)
     = match negb (strict_eq p c), set d with
       | true, Some setChecked => syncOps setChecked c input
       | _, _ => []
       end.
Proof.
  intros p c input. subst p c input. unfold nextActivation.
  destruct (session_settled events) as [m [Hc [Hk Hs]]]. rewrite Hc.
  rewrite clicks_snoc, <- Hk. unfold activate.
  destruct (render_settled
              {| checkbox := instance (click props (checkbox m) e); bubble := bubble m |}
              (checked props (checkbox m)) (node (session window props events)) Hs)
    as [h [_ Hr]].
  rewrite Hr. cbn [checkbox].
  destruct (negb (strict_eq _ _)), (set d); now split.
Qed.

End Session.

Section SessionModes.

Import Js Dom Checkbox.

Variable window : Window.
Variable onCheckedChange : bool.
Variable onClick : option (SyntheticEvent.t -> SyntheticEvent.t).

Local Abbreviation uncontrolled := (uncontrolledProps onCheckedChange onClick).
Local Abbreviation controlled := (controlledProps onCheckedChange onClick).

Lemma nextActivation_uncontrolled (defaultChecked : option CheckedState)
    (events : list SyntheticEvent.t) (e : SyntheticEvent.t) :
  located_setter window = Some checked_setter ->
  let shown :=
    checked (uncontrolled defaultChecked)
      (clicks (uncontrolled defaultChecked) (events ++ [e]) (mount (uncontrolled defaultChecked))) in
  ops (nextActivation window (uncontrolled defaultChecked) events e)
  = [ SetIndeterminate false; SetChecked (ToBoolean shown);
      DispatchEvent clickEvent {| Dom.indeterminate := false; Dom.checked := ToBoolean shown |} ]
  /\ node (nextActivation window (uncontrolled defaultChecked) events e)
     = {| Dom.indeterminate := false; Dom.checked := ToBoolean shown |}.
Proof.
  intros H shown.
  destruct (located_setter_descriptor window _ H) as [d [Hd Hset]].
  destruct (nextActivation_settled window (uncontrolled defaultChecked) d Hd events e)
    as [Hn Ho].
  rewrite Hn, Ho, Hset. fold shown.
  assert (Hmove : strict_eq
                    (checked (uncontrolled defaultChecked)
                       (clicks (uncontrolled defaultChecked) events
                          (mount (uncontrolled defaultChecked))))
                    shown = false).
  { destruct (strict_eq _ shown) eqn:Heq; [|reflexivity].
    apply strict_eq_true in Heq. subst shown. rewrite clicks_snoc in Heq.
    symmetry in Heq. now apply click_uncontrolled_moves in Heq. }
  assert (Hbool : strict_eq shown Indeterminate = false).
  { subst shown. rewrite clicks_snoc. apply click_uncontrolled_boolean. }
  rewrite Hmove. cbn [negb]. unfold syncOps, synced, checked_setter.
  rewrite Hbool. now split.
Qed.

Lemma session_uncontrolled_count (defaultChecked : option CheckedState)
    (events : list SyntheticEvent.t) :
  located_setter window = Some checked_setter ->
  dispatch_count (ops (session window (uncontrolled defaultChecked) events))
  = List.length events.
Proof.
  intros H. induction events as [|e events IH] using rev_ind.
  - destruct (located_setter_descriptor window _ H) as [d [Hd _]].
    unfold session, bind. now rewrite (mountCheckbox_with_descriptor window _ d Hd).
  - rewrite session_snoc, dispatch_count_app, IH, length_app.
    destruct (nextActivation_uncontrolled defaultChecked events e H) as [Ho _].
    now rewrite Ho.
Qed.

Lemma activations_controlled (x : CheckedState) (defaultChecked : option CheckedState)
    (d : PropertyDescriptor) (events : list SyntheticEvent.t) :
  getOwnPropertyDescriptor_checked window = Some d ->
  forall m input,
    settled (bubble m) x ->
    ops (activations window (controlled x defaultChecked) events m input) = []
    /\ node (activations window (controlled x defaultChecked) events m input) = input.
Proof.
  intros Hd. induction events as [|e events IH]; intros m input Hs; [now split|].
  change (activations window (controlled x defaultChecked) (e :: events) m input)
    with (bind (activate window (controlled x defaultChecked) e m)
            (fun m' => activations window (controlled x defaultChecked) events m') input).
  unfold bind, activate.
  destruct (render_settled window (controlled x defaultChecked) d Hd
              {| checkbox := instance (click (controlled x defaultChecked) (checkbox m) e);
                 bubble := bubble m |} x input Hs) as [h [Hh Hr]].
  rewrite Hr.
  change (checked (controlled x defaultChecked) _) with x.
  rewrite strict_eq_refl. cbn [negb completion node ops app].
  apply IH. exact Hh.
Qed.

End SessionModes.

(** X11.  On a host with the platform's setter, every click on an
    uncontrolled checkbox reaches the hidden input: the render after the
    click clears the indeterminate flag, sets the checked boolean to the
    state now shown and then dispatches one bubbling [click]; so a session
    of clicks dispatches as many events as there were clicks. *)
Theorem click_reaches_hidden_input :
  forall (window : Dom.Window) onCheckedChange onClick defaultChecked
         (events : list SyntheticEvent.t) (e : SyntheticEvent.t),
    Dom.located_setter window = Some Dom.checked_setter ->
    let props := Checkbox.uncontrolledProps onCheckedChange onClick defaultChecked in
    let shown :=
      Checkbox.checked props (Checkbox.clicks props (events ++ [e]) (Checkbox.mount props)) in
    Dom.ops (Checkbox.nextActivation window props events e)
    = [ Dom.SetIndeterminate false; Dom.SetChecked (Checkbox.ToBoolean shown);
        Dom.DispatchEvent Checkbox.clickEvent
          {| Dom.indeterminate := false; Dom.checked := Checkbox.ToBoolean shown |} ]
    /\ Dom.node (Checkbox.nextActivation window props events e)
       = {| Dom.indeterminate := false; Dom.checked := Checkbox.ToBoolean shown |}
    /\ Dom.ops (Checkbox.session window props (events ++ [e]))
       = (Dom.ops (Checkbox.session window props events)
            ++ Dom.ops (Checkbox.nextActivation window props events e))%list
    /\ Dom.dispatch_count (Dom.ops (Checkbox.session window props (events ++ [e])))
       = S (List.length events).
Proof.
  intros window oc ok d events e H props shown.
  destruct (nextActivation_uncontrolled window oc ok d events e H) as [Ho Hn].
  split; [exact Ho|]. split; [exact Hn|]. split; [apply session_snoc|].
  subst props. rewrite (session_uncontrolled_count window oc ok d (events ++ [e]) H).
  rewrite length_app. simpl. lia.
Qed.

Lemma click_reaches_hidden_input_witness :
  Dom.ops (Checkbox.nextActivation Dom.browser
             (Checkbox.uncontrolledProps false None (Some Checkbox.Indeterminate))
             [] SyntheticEvent.fresh)
  = [ Dom.SetIndeterminate false; Dom.SetChecked true;
      Dom.DispatchEvent Checkbox.clickEvent
        {| Dom.indeterminate := false; Dom.checked := true |} ].
Proof.
  exact (proj1 (click_reaches_hidden_input Dom.browser false None
                  (Some Checkbox.Indeterminate) [] SyntheticEvent.fresh eq_refl)).
Defined.

(** X12.  A controlled checkbox whose owner leaves the [checked] prop as
    it is never touches the hidden input: however many clicks there are,
    on any host, nothing is written to the node and no event is
    dispatched. *)
Theorem controlled_clicks_leave_hidden_input :
  forall (window : Dom.Window) onCheckedChange onClick external defaultChecked
         (events : list SyntheticEvent.t),
    let props := Checkbox.controlledProps onCheckedChange onClick external defaultChecked in
    Dom.ops (Checkbox.session window props events) = []
    /\ Dom.node (Checkbox.session window props events) = Checkbox.freshInput.
Proof.
  intros window oc ok x d events props. subst props.
  destruct (Dom.getOwnPropertyDescriptor_checked window) as [desc|] eqn:Hd.
  - unfold Checkbox.session, Dom.bind.
    rewrite (mountCheckbox_with_descriptor window _ desc Hd).
    cbn [Dom.completion Dom.node Dom.ops app].
    apply (activations_controlled window oc ok x d desc events Hd).
    split; [reflexivity | now eexists].
  - now rewrite session_without_descriptor.
Qed.

(** ** The memo inside [Provider] *)

Section ProviderMemoIsTransparent.

Import ProviderMemo.

Variable V : Type.
Variable Val : Type.
Variable Object_values : V -> list Val.
Variable Object_is : Val -> Val -> bool.

Lemma Provider_coherent (providerProps : V) (cell : option (Memo V Val)) :
  coherent Object_values cell ->
  coherent Object_values (snd (Provider Object_values Object_is providerProps cell)).
Proof.
  intros H. unfold Provider, React_useMemo. destruct cell as [memo|]; [|reflexivity].
  now destruct (areHookInputsEqual Object_is _ _).
Qed.


End ProviderMemoIsTransparent.

(** X13.  When the props of a [Provider] always have the same keys, so
    that two props objects whose values pass React's comparison are the
    same object, the memo is invisible to consumers: on every render of a
    mounted [Provider] the value broadcast is the props of that render. *)
Theorem Provider_memo_is_transparent :
  forall (V Val : Type) (Object_values : V -> list Val) (Object_is : Val -> Val -> bool),
    (forall p q : V,
        ProviderMemo.areHookInputsEqual Object_is (Object_values p) (Object_values q) = true ->
        q = p) ->
    forall ps : list V,
      ProviderMemo.broadcasts Object_values Object_is ps None = ps.
Proof.
  intros V Val values is_ Hkeys ps.
  assert (H : forall cell, ProviderMemo.coherent values cell ->
                           ProviderMemo.broadcasts values is_ ps cell = ps).
  { induction ps as [|p ps IH]; intros cell Hc; [reflexivity|].
    cbn [ProviderMemo.broadcasts].
    pose proof (Provider_coherent V Val values is_ p cell Hc) as Hc'.
    destruct (ProviderMemo.Provider values is_ p cell) as [value cell'] eqn:Hp.
    cbn [snd] in Hc'. rewrite (IH cell' Hc'). f_equal.
    unfold ProviderMemo.Provider, ProviderMemo.React_useMemo in Hp.
    destruct cell as [memo|]; [|now injection Hp as <- _].
    destruct (ProviderMemo.areHookInputsEqual is_ (values p) (ProviderMemo.memoizedDeps memo))
      eqn:Heq; [|now injection Hp as <- _].
    injection Hp as <- _. simpl in Hc. rewrite Hc in Heq. now apply Hkeys. }
  apply H. exact I.
Qed.

Lemma CheckboxValue_is_eq (a b : ProviderMemo.CheckboxValue) :
  ProviderMemo.CheckboxValue_is a b = true -> a = b.
Proof.
  destruct a as [x|[x|]], b as [y|[y|]]; simpl; intros H; try discriminate H;
    try reflexivity.
  - apply strict_eq_true in H. now subst.
  - apply Bool.eqb_prop in H. now subst.
Qed.

Lemma CheckboxContextValue_fixed_keys (p q : Checkbox.CheckboxContextValue) :
  ProviderMemo.areHookInputsEqual ProviderMemo.CheckboxValue_is
    (ProviderMemo.CheckboxContextValue_values p)
    (ProviderMemo.CheckboxContextValue_values q) = true ->
  q = p.
Proof.
  destruct p as [s d], q as [s' d'].
  cbn [ProviderMemo.areHookInputsEqual ProviderMemo.CheckboxContextValue_values
         Checkbox.state Checkbox.disabled].
  rewrite andb_true_r. intros H. apply andb_prop in H. destruct H as [Hs Hd].
  apply CheckboxValue_is_eq in Hs. apply CheckboxValue_is_eq in Hd.
  injection Hs as ->. injection Hd as ->. reflexivity.
Qed.

Lemma Provider_memo_is_transparent_witness :
  ProviderMemo.broadcasts ProviderMemo.CheckboxContextValue_values
    ProviderMemo.CheckboxValue_is
    [ {| Checkbox.state := Checkbox.Unchecked; Checkbox.disabled := None |};
      {| Checkbox.state := Checkbox.Unchecked; Checkbox.disabled := None |};
      {| Checkbox.state := Checkbox.Checked; Checkbox.disabled := Some false |} ]
    None
  = [ {| Checkbox.state := Checkbox.Unchecked; Checkbox.disabled := None |};
      {| Checkbox.state := Checkbox.Unchecked; Checkbox.disabled := None |};
      {| Checkbox.state := Checkbox.Checked; Checkbox.disabled := Some false |} ].
Proof.
  exact (Provider_memo_is_transparent _ _ ProviderMemo.CheckboxContextValue_values
           ProviderMemo.CheckboxValue_is CheckboxContextValue_fixed_keys _).
Defined.


